(** * Solar monitoring: condition monitors and daily statistics

    A shallow embedding of [solar-nextjs/lib/monitoring-service.ts] (the
    [MonitoringService] class) and of the missing-data computation of the
    dashboard ([solar-nextjs/app/page.tsx], [fetchData]).

    Conventions of the embedding.
    - A JavaScript [Date] is the integer [getTime()] gives: milliseconds, in [Z].
      [Date | null] is [option Z].  Every [new Date()] of the source is a
      parameter [now] of the function that reads the clock.
    - A JavaScript [number] that comes out of [parseFloat] is a [number]:
      [NaN] or an exact rational.  The rounding error of IEEE doubles is not
      modelled; comparisons with [NaN] are false, arithmetic propagates it.
    - [this.state], the settings file and the notifications sent are
      threaded by a state-and-output monad [M].  One [Alert] stands for the
      [Promise.allSettled] fan-out of one notification to e-mail, Telegram and
      Discord.
    - The settings storage is the JSON file of [SettingsStorage]: read again
      at every [get] and [set], holding any JSON value under a key, and
      written back on a best-effort basis (a write error is caught and
      logged).
    - [parseFloat] is a builtin: the functions that call it take it as a
      parameter; [parseFloat_decimal] is the instance used on concrete data. *)

From Stdlib Require Import ZArith QArith Qround Qabs Lia Lqa Ascii.
From stdpp Require Import base option list strings gmap pretty.

Local Open Scope Z_scope.

(** ** JavaScript numbers *)

Inductive number : Type :=
| NaN
| Fin (q : Q).

Definition Qltb (x y : Q) : bool := negb (Qle_bool y x).

(** [a < b], [a > b], [a >= b] and [a === b] of JavaScript. *)
Definition num_lt (a b : number) : bool :=
  match a, b with
  | Fin x, Fin y => Qltb x y
  | _, _ => false
  end.

Definition num_gt (a b : number) : bool := num_lt b a.

Definition num_ge (a b : number) : bool :=
  match a, b with
  | Fin x, Fin y => Qle_bool y x
  | _, _ => false
  end.

Definition num_eq (a b : number) : bool :=
  match a, b with
  | Fin x, Fin y => Qeq_bool x y
  | _, _ => false
  end.

Definition num_isNaN (a : number) : bool :=
  match a with
  | NaN => true
  | Fin _ => false
  end.

Definition num_lift2 (f : Q -> Q -> Q) (a b : number) : number :=
  match a, b with
  | Fin x, Fin y => Fin (f x y)
  | _, _ => NaN
  end.

Definition num_add : number -> number -> number := num_lift2 Qplus.
Definition num_sub : number -> number -> number := num_lift2 Qminus.
Definition num_mul : number -> number -> number := num_lift2 Qmult.
Definition num_div : number -> number -> number := num_lift2 Qdiv.

(** [Math.round]: the nearest integer, halves towards plus infinity. *)
Definition Qround_half_up (x : Q) : Z := Qfloor (x + (1 # 2)).

Definition Math_round (a : number) : number :=
  match a with
  | NaN => NaN
  | Fin x => Fin (inject_Z (Qround_half_up x))
  end.

(** A JavaScript string is falsy exactly when it is empty. *)
Definition truthy (s : string) : bool :=
  match s with
  | EmptyString => false
  | String _ _ => true
  end.

(** ** Monitoring state, configuration, notifications *)

Record MonitoringState : Type := {
  lastGridFeedCheck : option Z;
  lastLoadSheddingAlertTime : option Z;
  lastResetAlertTime : option Z;
  lastDailySummaryDate : option string;
  lastDataTimestamp : Z;
  lastSystemOfflineAlertTime : option Z;
  isLoadShedding : bool;
  systemResetDetected : bool;
  systemOnline : bool;
  lastKnownOutputPriority : option string;
  gridFeedingEnabled : bool;
  previousGridFeedStatus : bool
}.

Record Config : Type := {
  gridFeedAlertIntervalHours : Z;
  loadSheddingVoltageThreshold : Q;
  systemOfflineThresholdMinutes : Z;
  lowProductionThresholdWatts : Q
}.

(** The values the constructor takes when the environment sets none. *)
Definition defaultConfig : Config := {|
  gridFeedAlertIntervalHours := 1;
  loadSheddingVoltageThreshold := 180;
  systemOfflineThresholdMinutes := 10;
  lowProductionThresholdWatts := 500
|}.

(** The state the constructor builds at time [now]. *)
Definition initialState (now : Z) : MonitoringState := {|
  lastGridFeedCheck := None;
  lastLoadSheddingAlertTime := None;
  lastResetAlertTime := None;
  lastDailySummaryDate := None;
  lastDataTimestamp := now;
  lastSystemOfflineAlertTime := None;
  isLoadShedding := false;
  systemResetDetected := false;
  systemOnline := true;
  lastKnownOutputPriority := None;
  gridFeedingEnabled := true;
  previousGridFeedStatus := true
|}.

Inductive Alert : Type :=
| SystemOfflineAlert (minutesOffline : Z)
| SystemResetAlert (outputPriority : string)
| LoadSheddingAlert (gridVoltage : number)
| GridFeedDisabledAlert.

(** Assignments to the fields of [this.state]. *)
Definition set_lastGridFeedCheck (v : option Z) (s : MonitoringState) : MonitoringState :=
  {| lastGridFeedCheck := v;
     lastLoadSheddingAlertTime := lastLoadSheddingAlertTime s;
     lastResetAlertTime := lastResetAlertTime s;
     lastDailySummaryDate := lastDailySummaryDate s;
     lastDataTimestamp := lastDataTimestamp s;
     lastSystemOfflineAlertTime := lastSystemOfflineAlertTime s;
     isLoadShedding := isLoadShedding s;
     systemResetDetected := systemResetDetected s;
     systemOnline := systemOnline s;
     lastKnownOutputPriority := lastKnownOutputPriority s;
     gridFeedingEnabled := gridFeedingEnabled s;
     previousGridFeedStatus := previousGridFeedStatus s |}.

Definition set_lastLoadSheddingAlertTime (v : option Z) (s : MonitoringState) : MonitoringState :=
  {| lastGridFeedCheck := lastGridFeedCheck s;
     lastLoadSheddingAlertTime := v;
     lastResetAlertTime := lastResetAlertTime s;
     lastDailySummaryDate := lastDailySummaryDate s;
     lastDataTimestamp := lastDataTimestamp s;
     lastSystemOfflineAlertTime := lastSystemOfflineAlertTime s;
     isLoadShedding := isLoadShedding s;
     systemResetDetected := systemResetDetected s;
     systemOnline := systemOnline s;
     lastKnownOutputPriority := lastKnownOutputPriority s;
     gridFeedingEnabled := gridFeedingEnabled s;
     previousGridFeedStatus := previousGridFeedStatus s |}.

Definition set_lastResetAlertTime (v : option Z) (s : MonitoringState) : MonitoringState :=
  {| lastGridFeedCheck := lastGridFeedCheck s;
     lastLoadSheddingAlertTime := lastLoadSheddingAlertTime s;
     lastResetAlertTime := v;
     lastDailySummaryDate := lastDailySummaryDate s;
     lastDataTimestamp := lastDataTimestamp s;
     lastSystemOfflineAlertTime := lastSystemOfflineAlertTime s;
     isLoadShedding := isLoadShedding s;
     systemResetDetected := systemResetDetected s;
     systemOnline := systemOnline s;
     lastKnownOutputPriority := lastKnownOutputPriority s;
     gridFeedingEnabled := gridFeedingEnabled s;
     previousGridFeedStatus := previousGridFeedStatus s |}.

Definition set_lastDataTimestamp (v : Z) (s : MonitoringState) : MonitoringState :=
  {| lastGridFeedCheck := lastGridFeedCheck s;
     lastLoadSheddingAlertTime := lastLoadSheddingAlertTime s;
     lastResetAlertTime := lastResetAlertTime s;
     lastDailySummaryDate := lastDailySummaryDate s;
     lastDataTimestamp := v;
     lastSystemOfflineAlertTime := lastSystemOfflineAlertTime s;
     isLoadShedding := isLoadShedding s;
     systemResetDetected := systemResetDetected s;
     systemOnline := systemOnline s;
     lastKnownOutputPriority := lastKnownOutputPriority s;
     gridFeedingEnabled := gridFeedingEnabled s;
     previousGridFeedStatus := previousGridFeedStatus s |}.

Definition set_lastSystemOfflineAlertTime (v : option Z) (s : MonitoringState) : MonitoringState :=
  {| lastGridFeedCheck := lastGridFeedCheck s;
     lastLoadSheddingAlertTime := lastLoadSheddingAlertTime s;
     lastResetAlertTime := lastResetAlertTime s;
     lastDailySummaryDate := lastDailySummaryDate s;
     lastDataTimestamp := lastDataTimestamp s;
     lastSystemOfflineAlertTime := v;
     isLoadShedding := isLoadShedding s;
     systemResetDetected := systemResetDetected s;
     systemOnline := systemOnline s;
     lastKnownOutputPriority := lastKnownOutputPriority s;
     gridFeedingEnabled := gridFeedingEnabled s;
     previousGridFeedStatus := previousGridFeedStatus s |}.

Definition set_isLoadShedding (v : bool) (s : MonitoringState) : MonitoringState :=
  {| lastGridFeedCheck := lastGridFeedCheck s;
     lastLoadSheddingAlertTime := lastLoadSheddingAlertTime s;
     lastResetAlertTime := lastResetAlertTime s;
     lastDailySummaryDate := lastDailySummaryDate s;
     lastDataTimestamp := lastDataTimestamp s;
     lastSystemOfflineAlertTime := lastSystemOfflineAlertTime s;
     isLoadShedding := v;
     systemResetDetected := systemResetDetected s;
     systemOnline := systemOnline s;
     lastKnownOutputPriority := lastKnownOutputPriority s;
     gridFeedingEnabled := gridFeedingEnabled s;
     previousGridFeedStatus := previousGridFeedStatus s |}.

Definition set_systemResetDetected (v : bool) (s : MonitoringState) : MonitoringState :=
  {| lastGridFeedCheck := lastGridFeedCheck s;
     lastLoadSheddingAlertTime := lastLoadSheddingAlertTime s;
     lastResetAlertTime := lastResetAlertTime s;
     lastDailySummaryDate := lastDailySummaryDate s;
     lastDataTimestamp := lastDataTimestamp s;
     lastSystemOfflineAlertTime := lastSystemOfflineAlertTime s;
     isLoadShedding := isLoadShedding s;
     systemResetDetected := v;
     systemOnline := systemOnline s;
     lastKnownOutputPriority := lastKnownOutputPriority s;
     gridFeedingEnabled := gridFeedingEnabled s;
     previousGridFeedStatus := previousGridFeedStatus s |}.

Definition set_systemOnline (v : bool) (s : MonitoringState) : MonitoringState :=
  {| lastGridFeedCheck := lastGridFeedCheck s;
     lastLoadSheddingAlertTime := lastLoadSheddingAlertTime s;
     lastResetAlertTime := lastResetAlertTime s;
     lastDailySummaryDate := lastDailySummaryDate s;
     lastDataTimestamp := lastDataTimestamp s;
     lastSystemOfflineAlertTime := lastSystemOfflineAlertTime s;
     isLoadShedding := isLoadShedding s;
     systemResetDetected := systemResetDetected s;
     systemOnline := v;
     lastKnownOutputPriority := lastKnownOutputPriority s;
     gridFeedingEnabled := gridFeedingEnabled s;
     previousGridFeedStatus := previousGridFeedStatus s |}.

Definition set_lastKnownOutputPriority (v : option string) (s : MonitoringState) : MonitoringState :=
  {| lastGridFeedCheck := lastGridFeedCheck s;
     lastLoadSheddingAlertTime := lastLoadSheddingAlertTime s;
     lastResetAlertTime := lastResetAlertTime s;
     lastDailySummaryDate := lastDailySummaryDate s;
     lastDataTimestamp := lastDataTimestamp s;
     lastSystemOfflineAlertTime := lastSystemOfflineAlertTime s;
     isLoadShedding := isLoadShedding s;
     systemResetDetected := systemResetDetected s;
     systemOnline := systemOnline s;
     lastKnownOutputPriority := v;
     gridFeedingEnabled := gridFeedingEnabled s;
     previousGridFeedStatus := previousGridFeedStatus s |}.

Definition set_gridFeedingEnabled (v : bool) (s : MonitoringState) : MonitoringState :=
  {| lastGridFeedCheck := lastGridFeedCheck s;
     lastLoadSheddingAlertTime := lastLoadSheddingAlertTime s;
     lastResetAlertTime := lastResetAlertTime s;
     lastDailySummaryDate := lastDailySummaryDate s;
     lastDataTimestamp := lastDataTimestamp s;
     lastSystemOfflineAlertTime := lastSystemOfflineAlertTime s;
     isLoadShedding := isLoadShedding s;
     systemResetDetected := systemResetDetected s;
     systemOnline := systemOnline s;
     lastKnownOutputPriority := lastKnownOutputPriority s;
     gridFeedingEnabled := v;
     previousGridFeedStatus := previousGridFeedStatus s |}.

Definition set_previousGridFeedStatus (v : bool) (s : MonitoringState) : MonitoringState :=
  {| lastGridFeedCheck := lastGridFeedCheck s;
     lastLoadSheddingAlertTime := lastLoadSheddingAlertTime s;
     lastResetAlertTime := lastResetAlertTime s;
     lastDailySummaryDate := lastDailySummaryDate s;
     lastDataTimestamp := lastDataTimestamp s;
     lastSystemOfflineAlertTime := lastSystemOfflineAlertTime s;
     isLoadShedding := isLoadShedding s;
     systemResetDetected := systemResetDetected s;
     systemOnline := systemOnline s;
     lastKnownOutputPriority := lastKnownOutputPriority s;
     gridFeedingEnabled := gridFeedingEnabled s;
     previousGridFeedStatus := v |}.

(** ** The monad of the service *)

(** The settings storage (class [SettingsStorage], imported by the service as
    [./settings-storage]; among the sources it follows [lib/discord-service.ts])
    is the file [system_settings.json].  Every [get] and [set] reads the file
    again; [set] writes it back whole. *)

(** A value of the settings file, as [JSON.parse] returns it; a number is
    given by its value. *)
#[local] Set Warnings "-register-all".
Inductive JsonValue : Type :=
| JNull
| JBool (b : bool)
| JNumber (n : Q)
| JString (s : string)
| JArray (items : list JsonValue)
| JObject (members : list (string * JsonValue)).
#[local] Set Warnings "register-all".

Coercion JBool : bool >-> JsonValue.

(** The truthiness of a value of the file: [null], [false], [0] and the
    empty string are falsy, arrays and objects are truthy. *)
Definition json_truthy (v : JsonValue) : bool :=
  match v with
  | JNull => false
  | JBool b => b
  | JNumber n => negb (Qeq_bool n 0)
  | JString s => truthy s
  | JArray _ => true
  | JObject _ => true
  end.

(** [v === false]. *)
Definition json_is_false (v : JsonValue) : bool :=
  match v with
  | JBool false => true
  | _ => false
  end.

(** The settings file and the file system under it.  [parsed] is what
    [JSON.parse] makes of the file: [None] when the file is missing or is not
    valid JSON, else the members of the object it holds (a file that parses
    holds an object, as every file [saveSettings] writes does).
    [write_outcomes] tells, for the writes to come, whether [fs.writeFile]
    succeeds; past its end every write succeeds.  A write that fails leaves
    the file as it was. *)
Record SettingsFile : Type := {
  parsed : option (gmap string JsonValue);
  write_outcomes : list bool
}.

(** What [loadSettings] returns: the parsed object, [{}] when the file is
    missing or invalid. *)
Definition settings_of (f : SettingsFile) : gmap string JsonValue :=
  match parsed f with
  | Some settings => settings
  | None => ∅
  end.

(** [settings[key] !== undefined ? settings[key] : defaultValue] on the
    loaded settings, for a key that [Object.prototype] does not define. *)
Definition storage_lookup (key : string) (defaultValue : JsonValue) (f : SettingsFile)
  : JsonValue :=
  match settings_of f !! key with
  | Some v => v
  | None => defaultValue
  end.

(** Whether the next [fs.writeFile] succeeds. *)
Definition write_succeeds (f : SettingsFile) : bool :=
  match write_outcomes f with
  | ok :: _ => ok
  | [] => true
  end.

(** The file after [fs.writeFile(settingsFile, JSON.stringify(settings))],
    whose error [saveSettings] catches and logs. *)
Definition written (settings : gmap string JsonValue) (f : SettingsFile) : SettingsFile :=
  {| parsed := if write_succeeds f then Some settings else parsed f;
     write_outcomes := tail (write_outcomes f) |}.

Record Env : Type := {
  state : MonitoringState;
  storage : SettingsFile
}.

Definition M (A : Type) : Type := Env -> A * Env * list Alert.

Definition ret {A : Type} (a : A) : M A := fun e => (a, e, []).

Definition bind {A B : Type} (m : M A) (k : A -> M B) : M B :=
  fun e =>
    let '(a, e1, out1) := m e in
    let '(b, e2, out2) := k a e1 in
    (b, e2, out1 ++ out2).

Declare Scope monitor_scope.
Delimit Scope monitor_scope with monitor.
Notation "x <- m ;; k" := (bind m (fun x => k))
  (at level 100, m at next level, k at level 200, right associativity) : monitor_scope.
Notation "m ;; k" := (bind m (fun _ => k))
  (at level 100, k at level 200, right associativity) : monitor_scope.

Definition get_state : M MonitoringState := fun e => (state e, e, []).

Definition modify (f : MonitoringState -> MonitoringState) : M unit :=
  fun e => (tt, {| state := f (state e); storage := storage e |}, []).

Definition send (a : Alert) : M unit := fun e => (tt, e, [a]).

Definition loadSettings : M (gmap string JsonValue) :=
  fun e => (settings_of (storage e), e, []).

Definition saveSettings (settings : gmap string JsonValue) : M unit :=
  fun e => (tt, {| state := state e; storage := written settings (storage e) |}, []).

(** [settingsStorage.get(key, defaultValue)]. *)
Definition settingsStorage_get (key : string) (defaultValue : JsonValue) : M JsonValue :=
  bind loadSettings
    (fun settings =>
       ret (match settings !! key with
            | Some v => v
            | None => defaultValue
            end)).

(** [settingsStorage.set(key, value)]. *)
Definition settingsStorage_set (key : string) (value : JsonValue) : M unit :=
  bind loadSettings (fun settings => saveSettings (<[key := value]> settings)).

Definition when (b : bool) (m : M unit) : M unit := if b then m else ret tt.

Local Open Scope monitor_scope.

(** ** The condition monitors *)

Definition EXPECTED_OUTPUT_PRIORITY : string := "Solar Utility Bat".

(** The key of the export flag in the settings storage. *)
Definition grid_feeding_enabled : string := "grid_feeding_enabled".

(** The constructor's asynchronous load of the persisted export flag.  The
    two status fields are declared [boolean] and take whatever value the file
    holds; they are only ever tested for truthiness, and the state keeps the
    truthiness of what is assigned to them. *)
Definition initializeGridFeedStatus : M unit :=
  savedStatus <- settingsStorage_get grid_feeding_enabled true ;;
  modify (set_gridFeedingEnabled (json_truthy savedStatus)) ;;
  modify (set_previousGridFeedStatus (json_truthy savedStatus)).

Definition updateDataTimestamp (now : Z) : M unit :=
  modify (set_lastDataTimestamp now) ;;
  s <- get_state ;;
  when (negb (systemOnline s))
    (modify (set_systemOnline true) ;;
     modify (set_lastSystemOfflineAlertTime None)).

Definition checkSystemOffline (cfg : Config) (now : Z) : M unit :=
  s <- get_state ;;
  let timeSinceLastData := now - lastDataTimestamp s in
  let thresholdMs := systemOfflineThresholdMinutes cfg * 60 * 1000 in
  when ((timeSinceLastData >? thresholdMs) && systemOnline s)
    (modify (set_systemOnline false) ;;
     let minutesOffline := timeSinceLastData / 60000 in
     send (SystemOfflineAlert minutesOffline) ;;
     modify (set_lastSystemOfflineAlertTime (Some now))).

(** [!last || now - last >= interval] of the three reminder tests. *)
Definition elapsed_at_least (last : option Z) (now interval : Z) : bool :=
  match last with
  | None => true
  | Some t => now - t >=? interval
  end.

Definition checkSystemReset (now : Z) (outputPriority : string) : M unit :=
  if String.eqb outputPriority "Unknown" then ret tt
  else
    let isReset := negb (String.eqb outputPriority EXPECTED_OUTPUT_PRIORITY) in
    (if isReset then
       s <- get_state ;;
       let shouldSendAlert :=
         negb (systemResetDetected s)
         || elapsed_at_least (lastResetAlertTime s) now (60 * 60 * 1000) in
       when shouldSendAlert
         (send (SystemResetAlert outputPriority) ;;
          modify (set_systemResetDetected true) ;;
          modify (set_lastResetAlertTime (Some now)))
     else
       modify (set_systemResetDetected false) ;;
       modify (set_lastResetAlertTime None)) ;;
    modify (set_lastKnownOutputPriority (Some outputPriority)).

Definition isVoltageBelow (cfg : Config) (gridVoltage : number) : bool :=
  num_gt gridVoltage (Fin 0)
  && num_lt gridVoltage (Fin (loadSheddingVoltageThreshold cfg)).

Definition checkLoadShedding (cfg : Config) (now : Z) (gridVoltage : number) : M unit :=
  if isVoltageBelow cfg gridVoltage then
    s <- get_state ;;
    let shouldSendAlert :=
      negb (isLoadShedding s)
      || elapsed_at_least (lastLoadSheddingAlertTime s) now (5 * 60 * 60 * 1000) in
    when shouldSendAlert
      (send (LoadSheddingAlert gridVoltage) ;;
       modify (set_isLoadShedding true) ;;
       modify (set_lastLoadSheddingAlertTime (Some now)))
  else if num_gt gridVoltage (Fin (loadSheddingVoltageThreshold cfg)) then
    modify (set_isLoadShedding false) ;;
    modify (set_lastLoadSheddingAlertTime None)
  else ret tt.

(** [gridFeedEnabled] is declared [boolean]; it is what [getGridFeedStatus]
    returned, which without device data is the value of the file as it is. *)
Definition checkGridFeed (cfg : Config) (now : Z) (gridFeedEnabled : JsonValue) : M unit :=
  s <- get_state ;;
  let wentFromOnToOff := previousGridFeedStatus s && negb (json_truthy gridFeedEnabled) in
  (if wentFromOnToOff then
     send GridFeedDisabledAlert ;;
     modify (set_lastGridFeedCheck (Some now))
   else if negb (json_truthy gridFeedEnabled) then
     let shouldSendReminder :=
       elapsed_at_least (lastGridFeedCheck s) now
         (gridFeedAlertIntervalHours cfg * 60 * 60 * 1000) in
     when shouldSendReminder
       (send GridFeedDisabledAlert ;;
        modify (set_lastGridFeedCheck (Some now)))
   else
     modify (set_lastGridFeedCheck None)) ;;
  s' <- get_state ;;
  modify (set_previousGridFeedStatus (gridFeedingEnabled s')) ;;
  modify (set_gridFeedingEnabled (json_truthy gridFeedEnabled)) ;;
  settingsStorage_set grid_feeding_enabled gridFeedEnabled.

(** ** Telemetry *)

(** One row of [data.dat.row]; [field] may be absent. *)
Record Row : Type := { field : option (list string) }.

(** One entry of the [dat] array of the device's last data. *)
Record Item : Type := { title : string; val : option string }.

(** [rec.field || []]. *)
Definition fields_of (r : Row) : list string :=
  match field r with
  | Some fs => fs
  | None => []
  end.

(** [fields[i] ? f(fields[i]) : d], also when [i] is past the end. *)
Definition field_or {A : Type} (fields : list string) (i : nat) (f : string -> A) (d : A) : A :=
  match fields !! i with
  | Some s => if truthy s then f s else d
  | None => d
  end.

Record SystemData : Type := {
  outputPriority : string;
  gridVoltage : number;
  success : bool
}.

Definition noSystemData : SystemData :=
  {| outputPriority := "Unknown"; gridVoltage := Fin 0; success := false |}.

(** What one pass of the driver observes: the two answers of the WatchPower
    API ([None] when the call throws or carries no array) and the clock as
    each function reads it. *)
Record Poll : Type := {
  dailyData : option (list Row);
  deviceLastData : option (list Item);
  now_fetch : Z;
  now_reset : Z;
  now_shedding : Z;
  hour_feed : Z;
  now_feed : Z;
  now_offline : Z
}.

(** [deviceData[item.title] = item.val] for every item that has both. *)
Definition deviceData_of (dat : list Item) : gmap string string :=
  foldl (fun m item =>
           match val item with
           | Some v => if truthy (title item) then <[title item := v]> m else m
           | None => m
           end) ∅ dat.

(** [deviceData[key] || '0']. *)
Definition deviceData_or_zero (deviceData : gmap string string) (key : string) : string :=
  match deviceData !! key with
  | Some v => if truthy v then v else "0"
  | None => "0"
  end.

Section WithParseFloat.

Variable parseFloat : string -> number.

Definition getCurrentSystemData (daily : option (list Row)) (now : Z) : M SystemData :=
  match daily with
  | None => ret noSystemData
  | Some rows =>
    match last rows with
    | None => ret noSystemData
    | Some latestRow =>
      updateDataTimestamp now ;;
      let fields := fields_of latestRow in
      let outputPriority := field_or fields 38 id "Unknown" in
      let utilityVoltage := field_or fields 6 parseFloat (Fin 0) in
      let generatorVoltage := field_or fields 8 parseFloat (Fin 0) in
      let gridVoltage :=
        if num_eq utilityVoltage (Fin 0) then generatorVoltage else utilityVoltage in
      ret {| outputPriority := outputPriority; gridVoltage := gridVoltage; success := true |}
    end
  end.

Definition solarFeedPower_of (deviceData : gmap string string) : number :=
  parseFloat (deviceData_or_zero deviceData "Solar Feed To Grid Power").

Definition pvPower_of (deviceData : gmap string string) : number :=
  let pv1Power := parseFloat (deviceData_or_zero deviceData "PV1 Charging Power") in
  let pv2Power := parseFloat (deviceData_or_zero deviceData "PV2 Charging Power") in
  num_add pv1Power (if num_isNaN pv2Power then Fin 0 else pv2Power).

Definition getGridFeedStatus (lastData : option (list Item)) (currentHour : Z)
  : M JsonValue :=
  match lastData with
  | None => settingsStorage_get grid_feeding_enabled true
  | Some [] => settingsStorage_get grid_feeding_enabled true
  | Some dat =>
    let deviceData := deviceData_of dat in
    let solarFeedPower := solarFeedPower_of deviceData in
    let pvPower := pvPower_of deviceData in
    let isDaytime := (currentHour >=? 7) && (currentHour <=? 17) in
    let isProducing := num_gt pvPower (Fin 500) in
    let isFeeding := num_ge solarFeedPower (Fin 50) in
    if isDaytime && isProducing then ret (JBool isFeeding)
    else
      savedGridStatus <- settingsStorage_get grid_feeding_enabled true ;;
      if isFeeding then ret (JBool true)
      else if json_is_false savedGridStatus then ret (JBool false)
      else ret (JBool true)
  end.

Definition runAllChecks (cfg : Config) (p : Poll) : M unit :=
  systemData <- getCurrentSystemData (dailyData p) (now_fetch p) ;;
  when (success systemData)
    (when (negb (String.eqb (outputPriority systemData) "Unknown"))
       (checkSystemReset (now_reset p) (outputPriority systemData)) ;;
     when (num_gt (gridVoltage systemData) (Fin 0))
       (checkLoadShedding cfg (now_shedding p) (gridVoltage systemData)) ;;
     gridFeedEnabled <- getGridFeedStatus (deviceLastData p) (hour_feed p) ;;
     checkGridFeed cfg (now_feed p) gridFeedEnabled) ;;
  checkSystemOffline cfg (now_offline p).

End WithParseFloat.

(** ** Runs of checks *)

(** The notifications each check of a sequence sends, check by check. *)
Fixpoint trace (checks : list (M unit)) (e : Env) : list (list Alert) :=
  match checks with
  | [] => []
  | m :: rest => let '(_, e', out) := m e in out :: trace rest e'
  end.

(** The environment a sequence of checks leaves. *)
Fixpoint exec (checks : list (M unit)) (e : Env) : Env :=
  match checks with
  | [] => e
  | m :: rest => let '(_, e', _) := m e in exec rest e'
  end.

(** ** Daily statistics ([getDailyStats]) *)

Record DailySummaryData : Type := {
  date : string;
  production_kwh : number;
  load_kwh : number;
  grid_contribution_kwh : number;
  load_shedding_hours : string;
  standby_hours : string;
  missing_data_hours : string;
  system_off_hours : string;
  timestamp : string
}.

(** The accumulators of the loop over the rows. *)
Record Totals : Type := {
  totalProductionWh : number;
  totalLoadWh : number;
  batteryModeHours : Q;
  standbyModeHours : Q
}.

Definition intervalHours : Q := 5 / 60.

(** The rows the loop does not skip with [continue]. *)
Definition retained (dateStr : string) (rec : Row) : bool :=
  let fields := fields_of rec in
  if (length fields <? 22)%nat then false
  else
    match fields !! 1%nat with
    | Some timestamp => truthy timestamp && String.prefix dateStr timestamp
    | None => false
    end.

(** The predicate of [rows.filter] that counts the data points. *)
Definition counted (dateStr : string) (r : Row) : bool :=
  match field r with
  | Some fs =>
    (22 <=? length fs)%nat
    && match fs !! 1%nat with
       | Some timestamp => truthy timestamp && String.prefix dateStr timestamp
       | None => false
       end
  | None => false
  end.

Definition expectedDataPoints : Z := 288.

Definition actualDataPoints (dateStr : string) (rows : list Row) : Z :=
  Z.of_nat (length (filter (fun r => counted dateStr r = true) rows)).

Definition missingDataPoints (dateStr : string) (rows : list Row) : Z :=
  Z.max 0 (expectedDataPoints - actualDataPoints dateStr rows).

Definition missingDataHours (dateStr : string) (rows : list Row) : Q :=
  (inject_Z (missingDataPoints dateStr rows) * 5) / 60.

Definition formatHours (decimalHours : Q) : string :=
  let hrs := Qfloor decimalHours in
  let mins := Qround_half_up ((decimalHours - inject_Z hrs) * 60) in
  pretty hrs +:+ " hr " +:+ pretty mins +:+ " min".

(** [Math.round(x * 100) / 100] for [x] in kWh. *)
Definition round_kwh (x : number) : number :=
  num_div (Math_round (num_mul x (Fin 100))) (Fin 100).

Section DailyStats.

Variable parseFloat : string -> number.

Definition accumulate (dateStr : string) (acc : Totals) (rec : Row) : Totals :=
  if retained dateStr rec then
    let fields := fields_of rec in
    let pvPower := field_or fields 11 parseFloat (Fin 0) in
    let loadPower := field_or fields 21 parseFloat (Fin 0) in
    let mode := field_or fields 47 id "" in
    {| totalProductionWh := num_add (totalProductionWh acc) (num_mul pvPower (Fin intervalHours));
       totalLoadWh := num_add (totalLoadWh acc) (num_mul loadPower (Fin intervalHours));
       batteryModeHours :=
         if String.eqb mode "Battery Mode" then (batteryModeHours acc + intervalHours)%Q
         else batteryModeHours acc;
       standbyModeHours :=
         if String.eqb mode "Battery Mode" then standbyModeHours acc
         else if String.eqb mode "Standby Mode" then (standbyModeHours acc + intervalHours)%Q
         else standbyModeHours acc |}
  else acc.

Definition totals (dateStr : string) (rows : list Row) : Totals :=
  foldl (accumulate dateStr)
    {| totalProductionWh := Fin 0; totalLoadWh := Fin 0;
       batteryModeHours := 0; standbyModeHours := 0 |} rows.

Definition productionKwh (dateStr : string) (rows : list Row) : number :=
  round_kwh (num_div (totalProductionWh (totals dateStr rows)) (Fin 1000)).

Definition loadKwh (dateStr : string) (rows : list Row) : number :=
  round_kwh (num_div (totalLoadWh (totals dateStr rows)) (Fin 1000)).

Definition gridContributionKwh (dateStr : string) (rows : list Row) : number :=
  let t := totals dateStr rows in
  round_kwh (num_div (num_sub (totalProductionWh t) (totalLoadWh t)) (Fin 1000)).

(** [daily] is the answer of [api.getDailyData(dateStr)], [None] when it
    throws; [generatedAt] is the formatted clock reading. *)
Definition getDailyStats (daily : option (list Row)) (dateStr generatedAt : string)
  : option DailySummaryData :=
  match daily with
  | None => None
  | Some rows =>
    let t := totals dateStr rows in
    let totalSystemOff := (standbyModeHours t + missingDataHours dateStr rows)%Q in
    Some {| date := dateStr;
            production_kwh := productionKwh dateStr rows;
            load_kwh := loadKwh dateStr rows;
            grid_contribution_kwh := gridContributionKwh dateStr rows;
            load_shedding_hours := formatHours (batteryModeHours t);
            standby_hours := formatHours (standbyModeHours t);
            missing_data_hours := formatHours (missingDataHours dateStr rows);
            system_off_hours := formatHours totalSystemOff;
            timestamp := generatedAt |}
  end.

End DailyStats.

(** ** The dashboard's missing-data computation ([page.tsx], [fetchData]) *)

Module Dashboard.

Definition DATA_INTERVAL_MINUTES : Z := 5.
Definition EXPECTED_DATA_POINTS_PER_DAY : Z := 288.

(** [date] is the requested day, [today] is [getTodayLocal()], [hours] and
    [minutes] are [now.getHours()] and [now.getMinutes()]. *)
Definition expectedDataPoints (date today : string) (hours minutes : Z) : Z :=
  let isToday := String.eqb date today in
  if isToday then
    let minutesSinceMidnight := hours * 60 + minutes in
    minutesSinceMidnight / DATA_INTERVAL_MINUTES
  else EXPECTED_DATA_POINTS_PER_DAY.

Definition missingDataPoints {A : Type} (graphData : list A) (date today : string)
    (hours minutes : Z) : Z :=
  let actualDataPoints := Z.of_nat (length graphData) in
  Z.max 0 (expectedDataPoints date today hours minutes - actualDataPoints).

End Dashboard.

(** ** [parseFloat] on decimal literals *)

Definition digit_of (c : Ascii.ascii) : option Z :=
  let n := Z.of_nat (Ascii.nat_of_ascii c) in
  if (48 <=? n) && (n <=? 57) then Some (n - 48) else None.

(** Reads the longest run of digits; gives its value, its length and the rest. *)
Fixpoint read_digits (s : string) (acc : Z) (count : nat) : Z * nat * string :=
  match s with
  | String c rest =>
    match digit_of c with
    | Some d => read_digits rest (10 * acc + d) (S count)
    | None => (acc, count, s)
    end
  | EmptyString => (acc, count, s)
  end.

(** [parseFloat] restricted to an optional sign, digits and an optional
    fraction (no leading white space, no exponent, no [Infinity]): the longest
    such prefix is read, and there is no number without a digit. *)
Definition parseFloat_decimal (s : string) : number :=
  let '(negative, s1) :=
    match s with
    | String "-"%char r => (true, r)
    | String "+"%char r => (false, r)
    | _ => (false, s)
    end in
  let '(int_part, int_len, s2) := read_digits s1 0 0 in
  let '(frac_part, frac_len, _) :=
    match s2 with
    | String "."%char r => read_digits r 0 0
    | _ => (0, 0%nat, s2)
    end in
  if (int_len + frac_len =? 0)%nat then NaN
  else
    let fraction := Qmake frac_part (Z.to_pos (10 ^ Z.of_nat frac_len)) in
    let v := (inject_Z int_part + fraction)%Q in
    Fin (Qred (if negative then - v else v)).

(** ** Properties of runs *)

(** A priority that counts as a deviation: resolved, and not the expected one. *)
Definition deviating (outputPriority : string) : Prop :=
  outputPriority <> "Unknown" /\ outputPriority <> EXPECTED_OUTPUT_PRIORITY.

(** Every check of [ts] comes less than [cadence] after [t0]. *)
Definition within (cadence t0 : Z) (ts : list Z) : Prop :=
  Forall (fun t => t - t0 < cadence) ts.

(** Each check of [ts] comes at least [cadence] after the one before it, the
    first one after [prev]. *)
Fixpoint spaced (cadence prev : Z) (ts : list Z) : Prop :=
  match ts with
  | [] => True
  | t :: rest => cadence <= t - prev /\ spaced cadence t rest
  end.

Definition exactly_one_alert (out : list Alert) : Prop := length out = 1%nat.


(** The checks of one monitor at the times and readings of [cs]. *)
Definition checks_at {I : Type} (check : Z -> I -> M unit) (cs : list (Z * I)) : list (M unit) :=
  map (fun c => check (fst c) (snd c)) cs.

(** The fetch of a pass fails: the call throws, or it brings no row. *)
Definition fetchFailed (p : Poll) : bool :=
  match dailyData p with
  | None => true
  | Some [] => true
  | Some (_ :: _) => false
  end.

Definition alerts_of {A : Type} (r : A * Env * list Alert) : list Alert := snd r.
Definition env_of {A : Type} (r : A * Env * list Alert) : Env := snd (fst r).
Definition value_of {A : Type} (r : A * Env * list Alert) : A := fst (fst r).

(** The state of each monitor between two checks: no alert pending
    ([_inactive]), or alerted last at [t0] ([_active t0]). *)
Definition reset_inactive (e : Env) : Prop := systemResetDetected (state e) = false.

Definition reset_active (t0 : Z) (e : Env) : Prop :=
  systemResetDetected (state e) = true /\ lastResetAlertTime (state e) = Some t0.

Definition shedding_inactive (e : Env) : Prop := isLoadShedding (state e) = false.

Definition shedding_active (t0 : Z) (e : Env) : Prop :=
  isLoadShedding (state e) = true /\ lastLoadSheddingAlertTime (state e) = Some t0.

(** The export monitor once both remembered statuses are "disabled": after a
    start with the persisted flag off ([last = None]), or from the second
    disabled check on. *)
Definition feed_settled (last : option Z) (e : Env) : Prop :=
  previousGridFeedStatus (state e) = false
  /\ gridFeedingEnabled (state e) = false
  /\ lastGridFeedCheck (state e) = last.

(** No notification of the staleness monitor. *)
Definition not_offline_alert (a : Alert) : Prop :=
  match a with
  | SystemOfflineAlert _ => False
  | _ => True
  end.

(** A computation that leaves the staleness monitor alone: it keeps the three
    fields of that monitor and sends none of its notifications. *)
Definition staleness_frame {A : Type} (m : M A) : Prop :=
  forall e : Env,
    lastDataTimestamp (state (env_of (m e))) = lastDataTimestamp (state e)
    /\ systemOnline (state (env_of (m e))) = systemOnline (state e)
    /\ lastSystemOfflineAlertTime (state (env_of (m e))) = lastSystemOfflineAlertTime (state e)
    /\ Forall not_offline_alert (alerts_of (m e)).

(** ** The specification's own rules *)

(** The expected sample count, in the words of the specification. *)
Definition expectedSampleCount_spec (isToday : bool) (minutesElapsedSinceMidnight : Z) : Z :=
  if isToday then minutesElapsedSinceMidnight / 5 else 288.

(** The export belief, in the words of the specification: by day and while
    producing, feeding at least 50 W; otherwise enabled when feeding any
    amount, else the persisted belief, enabled when there is none. *)
Definition exportBelief_spec (isDaytime : bool) (pvPower solarFeedPower : number)
    (persisted : option bool) : bool :=
  if isDaytime && num_gt pvPower (Fin 500) then num_ge solarFeedPower (Fin 50)
  else if num_gt solarFeedPower (Fin 0) then true
  else match persisted with
       | Some b => b
       | None => true
       end.

(** ** Concrete data *)

(** A telemetry row of 22 fields with a timestamp, a PV power and a load. *)
Definition sampleRow (ts pv load : string) : Row :=
  {| field := Some (["0"; ts] ++ replicate 9 "" ++ [pv] ++ replicate 9 "" ++ [load]) |}.

(** A pass at time [t] whose fetch throws. *)
Definition failedPoll (t : Z) : Poll :=
  {| dailyData := None; deviceLastData := None;
     now_fetch := t; now_reset := t; now_shedding := t;
     hour_feed := 12; now_feed := t; now_offline := t |}.

(** A pass at time [t] whose fetch brings one row without fields, and whose
    device data are missing: no priority, no voltage, the saved feed status. *)
Definition quietPoll (t : Z) : Poll :=
  {| dailyData := Some [ {| field := None |} ]; deviceLastData := None;
     now_fetch := t; now_reset := t; now_shedding := t;
     hour_feed := 12; now_feed := t; now_offline := t |}.

(** A file system without a settings file, on which every write succeeds. *)
Definition noSettingsFile : SettingsFile := {| parsed := None; write_outcomes := [] |}.

(** The service as constructed at time [t], without a settings file. *)
Definition freshEnv (t : Z) : Env := {| state := initialState t; storage := noSettingsFile |}.

Definition utilityFirst : string := "Utility Solar Bat".

(** The service an hour after its start, after one pass whose fetch failed:
    marked offline. *)
Definition offlineEnv : Env :=
  env_of (runAllChecks parseFloat_decimal defaultConfig (failedPoll 3600000) (freshEnv 0)).

Definition sampleDay : string := "2025-10-08".

(** One sample: 1000 W of PV and 930 W of load at noon. *)
Definition unevenRows : list Row := [sampleRow "2025-10-08 12:00:00" "1000" "930"].

(** The device reports 30 W fed to the grid and nothing else. *)
Definition lowFeedItems : list Item :=
  [ {| title := "Solar Feed To Grid Power"; val := Some "30" |} ].

(** The service with the export flag persisted as disabled. *)
Definition disabledFlagEnv : Env :=
  {| state := initialState 0;
     storage := {| parsed := Some {[ grid_feeding_enabled := JBool false ]};
                   write_outcomes := [] |} |}.

(** ** The reset check of the API ([app/api/system/check-reset/route.ts]) *)

Record CheckResetResponse : Type := {
  reset_detected : bool;
  reset_reasons : list string;
  output_source_priority : string;
  expected_output_priority : string;
  recommendations : list string
}.

Section CheckResetRoute.

Variable parseFloat : string -> number.

(** The handler of [GET /api/system/check-reset], on the answer [daily] of
    the API; [now_fetch] and [now_reset] are the clock as
    [updateDataTimestamp] and [checkSystemReset] read it. *)
Definition checkResetRoute (daily : option (list Row)) (now_fetch now_reset : Z)
  : M CheckResetResponse :=
  systemData <- getCurrentSystemData parseFloat daily now_fetch ;;
  let resetDetected :=
    negb (String.eqb (outputPriority systemData) EXPECTED_OUTPUT_PRIORITY)
    && negb (String.eqb (outputPriority systemData) "Unknown") in
  when resetDetected (checkSystemReset now_reset (outputPriority systemData)) ;;
  ret {| reset_detected := resetDetected;
         reset_reasons :=
           if resetDetected then
             ["Output Priority changed from '" +:+ EXPECTED_OUTPUT_PRIORITY +:+ "' to '"
              +:+ outputPriority systemData +:+ "'"]
           else [];
         output_source_priority := outputPriority systemData;
         expected_output_priority := EXPECTED_OUTPUT_PRIORITY;
         recommendations :=
           if resetDetected then
             ["Open WatchPower app";
              "Set Output Priority back to 'Solar Utility Bat'";
              "Disable LCD Auto Return if enabled";
              "Enable Grid Feeding if it was disabled"]
           else [] |}.

End CheckResetRoute.

(** The fields of the state that belong to no monitor but the staleness one
    are those [keep_staleness] takes from [s']; all others come from [s]. *)
Definition keep_staleness (s' s : MonitoringState) : MonitoringState :=
  set_lastSystemOfflineAlertTime (lastSystemOfflineAlertTime s')
    (set_systemOnline (systemOnline s') s).

(** The reset monitor's own fields. *)
Definition reset_fields (s : MonitoringState) : bool * option Z * option string :=
  (systemResetDetected s, lastResetAlertTime s, lastKnownOutputPriority s).

(** ** Reading the daily statistics *)

(** The PV power and the load the loop of [getDailyStats] reads off a row. *)
Definition pvPower_of_row (parseFloat : string -> number) (rec : Row) : number :=
  field_or (fields_of rec) 11 parseFloat (Fin 0).

Definition loadPower_of_row (parseFloat : string -> number) (rec : Row) : number :=
  field_or (fields_of rec) 21 parseFloat (Fin 0).

(** The rows of [rows] the loop does not skip. *)
Definition retained_rows (dateStr : string) (rows : list Row) : list Row :=
  filter (fun r => retained dateStr r = true) rows.

Definition num_sum (l : list number) : number := fold_right num_add (Fin 0) l.

(** The energy of a list of samples in Wh: the running sum, in the order of
    the samples and from zero, of power times the five minutes of a sample. *)
Definition energyWh_spec (power : Row -> number) (samples : list Row) : number :=
  foldl (fun acc rec => num_add acc (num_mul (power rec) (Fin intervalHours))) (Fin 0) samples.

(** The mode the loop of [getDailyStats] reads off a row. *)
Definition mode_of_row (rec : Row) : string :=
  field_or (fields_of rec) 47 id "".

(** How many of the samples are in mode [m]. *)
Definition rows_in_mode (m : string) (samples : list Row) : nat :=
  length (filter (fun r => String.eqb (mode_of_row r) m = true) samples).


(** The same JavaScript number: both [NaN], or equal as rationals. *)
Definition num_same (a b : number) : Prop :=
  match a, b with
  | NaN, NaN => True
  | Fin x, Fin y => (x == y)%Q
  | _, _ => False
  end.

(** ** Statistics of a range of days ([app/api/stats-range/route.ts]) *)

(** [s.includes(sub)]. *)
Fixpoint includes (sub s : string) : bool :=
  String.prefix sub s
  || match s with
     | EmptyString => false
     | String _ rest => includes sub rest
     end.

(** A thrown error, with its [message] when it has one. *)
Record JsError : Type := { message : option string }.

(** How one call of [fn] ends. *)
Inductive Outcome (T : Type) : Type :=
| Resolved (v : T)
| Rejected (error : JsError).
Arguments Resolved {T} v.
Arguments Rejected {T} error.

(** How [retryWithBackoff] ends: with a value, or by throwing; the [throw
    lastError] after the loop throws [undefined] ([None]) when no call was
    made. *)
Inductive Settled (T : Type) : Type :=
| Returned (v : T)
| Threw (error : option JsError).
Arguments Returned {T} v.
Arguments Threw {T} error.

(** [error.message?.includes('No data available') ||
    error.message?.includes('ERR_NO_RECORD')]. *)
Definition noRetry (error : JsError) : bool :=
  match message error with
  | Some m => includes "No data available" m || includes "ERR_NO_RECORD" m
  | None => false
  end.

(** What a run of [retryWithBackoff] does: how it ends, the delays it waited
    in order (milliseconds), and how many times it called [fn]. *)
Record RetryRun (T : Type) : Type := {
  settled : Settled T;
  waits : list Z;
  calls : nat
}.
Arguments settled {T} r.
Arguments waits {T} r.
Arguments calls {T} r.

(** The loop of [retryWithBackoff] from [attempt] on, with [remaining =
    maxRetries - attempt] turns left; [fn i] is how the call number [i] of
    [fn] ends. *)
Fixpoint retry_from {T : Type} (fn : nat -> Outcome T) (maxRetries : nat) (initialDelay : Z)
    (remaining attempt : nat) (lastError : option JsError) : RetryRun T :=
  match remaining with
  | O => {| settled := Threw lastError; waits := []; calls := 0 |}
  | S remaining' =>
    match fn attempt with
    | Resolved v => {| settled := Returned v; waits := []; calls := 1 |}
    | Rejected error =>
      if noRetry error then {| settled := Threw (Some error); waits := []; calls := 1 |}
      else if (attempt =? maxRetries - 1)%nat then
        {| settled := Threw (Some error); waits := []; calls := 1 |}
      else
        let delay := initialDelay * 2 ^ Z.of_nat attempt in
        let rest := retry_from fn maxRetries initialDelay remaining' (S attempt) (Some error) in
        {| settled := settled rest; waits := delay :: waits rest; calls := S (calls rest) |}
    end
  end.

Definition retryWithBackoff {T : Type} (fn : nat -> Outcome T) (maxRetries : nat)
    (initialDelay : Z) : RetryRun T :=
  retry_from fn maxRetries initialDelay maxRetries 0 None.

(** [x || 0] on a number: [NaN] and zero give zero. *)
Definition or_zero (x : number) : number :=
  match x with
  | NaN => Fin 0
  | Fin q => if Qeq_bool q 0 then Fin 0 else Fin q
  end.

(** The accumulators of the loop over the rows of one day. *)
Record RangeTotals : Type := {
  pvWh : number;
  loadWh : number;
  hasValidData : bool
}.

(** What the route reports for one day; [None] is [null]. *)
Record RangeDay : Type := {
  rd_date : string;
  rd_production_kwh : option number;
  rd_load_kwh : option number;
  rd_error : option string
}.

Section StatsRange.

Variable parseFloat : string -> number.

(** [parseFloat(fields[i])]; past the end the argument is [undefined], which
    does not parse. *)
Definition parseFloat_at (fields : list string) (i : nat) : number :=
  match fields !! i with
  | Some s => parseFloat s
  | None => NaN
  end.

Definition rangeAccumulate (dateStr : string) (acc : RangeTotals) (rec : Row) : RangeTotals :=
  let fields := fields_of rec in
  if (length fields <? 22)%nat then acc
  else
    match fields !! 1%nat with
    | Some timestamp =>
      if String.prefix dateStr timestamp then
        let pvPower := or_zero (parseFloat_at fields 11) in
        let loadPower := or_zero (parseFloat_at fields 21) in
        {| pvWh := num_add (pvWh acc) (num_mul pvPower (Fin intervalHours));
           loadWh := num_add (loadWh acc) (num_mul loadPower (Fin intervalHours));
           hasValidData := true |}
      else acc
    | None => acc
    end.

Definition rangeTotals (dateStr : string) (rows : list Row) : RangeTotals :=
  foldl (rangeAccumulate dateStr)
    {| pvWh := Fin 0; loadWh := Fin 0; hasValidData := false |} rows.

Definition noRangeData (dateStr : string) : RangeDay :=
  {| rd_date := dateStr; rd_production_kwh := None; rd_load_kwh := None; rd_error := None |}.

(** The body of the loop over the days, for the day [dateStr], on what the
    retried fetch gave: the rows, or the error it threw. *)
Definition rangeDay (dateStr : string) (fetched : list Row + JsError) : RangeDay :=
  match fetched with
  | inr error =>
    {| rd_date := dateStr; rd_production_kwh := None; rd_load_kwh := None;
       rd_error := message error |}
  | inl [] => noRangeData dateStr
  | inl rows =>
    let t := rangeTotals dateStr rows in
    if negb (hasValidData t) then noRangeData dateStr
    else
      {| rd_date := dateStr;
         rd_production_kwh := Some (round_kwh (num_div (pvWh t) (Fin 1000)));
         rd_load_kwh := Some (round_kwh (num_div (loadWh t) (Fin 1000)));
         rd_error := None |}
  end.

End StatsRange.

(** The delays of a run that waited [n] times: [d], [2 d], [4 d], ... *)
Definition backoff_delays (initialDelay : Z) (n : nat) : list Z :=
  map (fun attempt => initialDelay * 2 ^ Z.of_nat attempt) (seq 0 n).

(** How an attempt that is not retried ends the run. *)
Definition settle {T : Type} (o : Outcome T) : Settled T :=
  match o with
  | Resolved v => Returned v
  | Rejected error => Threw (Some error)
  end.

(** An attempt after which the loop goes on: it failed with an error that is
    retried. *)
Definition retried {T : Type} (o : Outcome T) : Prop :=
  exists error, o = Rejected error /\ noRetry error = false.

(** An attempt that ends the run wherever it comes: a value, or an error
    that is not retried. *)
Definition decisive {T : Type} (o : Outcome T) : Prop :=
  match o with
  | Resolved _ => True
  | Rejected error => noRetry error = true
  end.

(** A fetch that times out, then fails without a message, then answers. *)
Definition flaky (i : nat) : Outcome string :=
  match i with
  | 0%nat => Rejected {| message := Some "timeout of 30000ms exceeded" |}
  | 1%nat => Rejected {| message := None |}
  | _ => Resolved "rows"
  end.

(** ** The health report ([app/api/system/health/route.ts]) *)

(** A warning of the report; each constructor stands for the message the
    route builds from its value. *)
Inductive HealthWarning : Type :=
| LowGridVoltage (volts : number)
| HighGridVoltage (volts : number)
| GridFrequencyOutOfRange (hertz : number)
| StandbyModeWarning
| HighLoad (percent : number).

(** The one error of the report: "System in fault mode". *)
Inductive HealthError : Type :=
| FaultModeError.

Record HealthResponse : Type := {
  status : string;
  health_score : Z;
  utility_ac_voltage : number;
  utility_ac_frequency : number;
  pv_input_voltage : number;
  pv_charging_power : number;
  ac_output_voltage : number;
  ac_output_frequency : number;
  ac_output_power : number;
  output_load_percent : number;
  system_mode : string;
  warnings : list HealthWarning;
  errors : list HealthError
}.

(** What the handler answers: the report, 503 without device data, 500 when
    the call to the API throws. *)
Inductive HealthAnswer : Type :=
| HealthReport (r : HealthResponse)
| NoDataAvailable
| HealthFailure.

(** [deviceData[key] || default]. *)
Definition deviceData_or (deviceData : gmap string string) (key default : string) : string :=
  match deviceData !! key with
  | Some v => if truthy v then v else default
  | None => default
  end.

Section HealthRoute.

Variable parseFloat : string -> number.

(** The warnings, errors and score after each of the four checks; the lists
    are in the order of the pushes. *)
Definition checkGridVoltage (v : number) (acc : list HealthWarning * list HealthError * Z)
  : list HealthWarning * list HealthError * Z :=
  let '(ws, es, score) := acc in
  if num_gt v (Fin 0) && num_lt v (Fin 180) then (ws ++ [LowGridVoltage v], es, score - 15)
  else if num_gt v (Fin 250) then (ws ++ [HighGridVoltage v], es, score - 10)
  else acc.

Definition checkGridFrequency (f : number) (acc : list HealthWarning * list HealthError * Z)
  : list HealthWarning * list HealthError * Z :=
  let '(ws, es, score) := acc in
  if num_gt f (Fin 0) && (num_lt f (Fin 48) || num_gt f (Fin 52)) then
    (ws ++ [GridFrequencyOutOfRange f], es, score - 10)
  else acc.

Definition checkSystemMode (mode : string) (acc : list HealthWarning * list HealthError * Z)
  : list HealthWarning * list HealthError * Z :=
  let '(ws, es, score) := acc in
  if String.eqb mode "Fault Mode" then (ws, es ++ [FaultModeError], score - 50)
  else if String.eqb mode "Standby Mode" then (ws ++ [StandbyModeWarning], es, score - 5)
  else acc.

Definition checkLoad (percent : number) (acc : list HealthWarning * list HealthError * Z)
  : list HealthWarning * list HealthError * Z :=
  let '(ws, es, score) := acc in
  if num_gt percent (Fin 90) then (ws ++ [HighLoad percent], es, score - 10) else acc.

Definition healthRoute (lastData : option (list Item)) : HealthAnswer :=
  match lastData with
  | None => HealthFailure
  | Some [] => NoDataAvailable
  | Some dat =>
    let deviceData := deviceData_of dat in
    let number_of key := parseFloat (deviceData_or_zero deviceData key) in
    let utilityVoltage := number_of "Utility AC Voltage" in
    let generatorVoltage := number_of "Generator AC Voltage" in
    let actualGridVoltage :=
      if num_eq utilityVoltage (Fin 0) then generatorVoltage else utilityVoltage in
    let utilityFrequency := number_of "Utility AC Frequency" in
    let generatorFrequency := number_of "Generator AC Frequency" in
    let actualGridFrequency :=
      if num_eq utilityFrequency (Fin 0) then generatorFrequency else utilityFrequency in
    let pvVoltage := number_of "PV1 Input Voltage" in
    let pvPower := pvPower_of parseFloat deviceData in
    let acOutputVoltage := number_of "AC Output Voltage" in
    let acOutputFrequency := number_of "AC Output Frequency" in
    let acOutputPower := number_of "AC Output Active Power" in
    let outputLoadPercent := number_of "Output Load Percent" in
    let systemMode := deviceData_or deviceData "Mode" "Unknown" in
    let '(warnings, errors, healthScore) :=
      checkLoad outputLoadPercent
        (checkSystemMode systemMode
           (checkGridFrequency actualGridFrequency
              (checkGridVoltage actualGridVoltage ([], [], 100)))) in
    let status :=
      if (0 <? length errors)%nat then "Critical"
      else if (0 <? length warnings)%nat then "Warning"
      else "Online" in
    HealthReport
      {| status := status;
         health_score := Z.max 0 healthScore;
         utility_ac_voltage := actualGridVoltage;
         utility_ac_frequency := actualGridFrequency;
         pv_input_voltage := pvVoltage;
         pv_charging_power := pvPower;
         ac_output_voltage := acOutputVoltage;
         ac_output_frequency := acOutputFrequency;
         ac_output_power := acOutputPower;
         output_load_percent := outputLoadPercent;
         system_mode := systemMode;
         warnings := warnings;
         errors := errors |}
  end.

End HealthRoute.

(** The device reports 170 V on the grid and a load of 95 percent, in
    standby mode. *)
Definition weakGridItems : list Item :=
  [ {| title := "Utility AC Voltage"; val := Some "170" |};
    {| title := "Output Load Percent"; val := Some "95" |};
    {| title := "Mode"; val := Some "Standby Mode" |} ].

(** ** The chart of the dashboard ([app/page.tsx]) *)

(** One point of [graphData]. *)
Record Point : Type := {
  time : string;
  pv_power : number;
  load_power : number;
  mode : string
}.

(** A zone of the chart: the indices [zone_start] to [zone_end] of
    [graphData], all in mode [zone_mode] ([start], [end] and [mode] in the
    source). *)
Record Zone : Type := {
  zone_start : Z;
  zone_end : Z;
  zone_mode : string
}.

(** The variables of [processModeZones] while it walks [graphData]. *)
Record ZoneScan : Type := {
  zones : list Zone;
  currentMode : option string;
  startIndex : Z
}.

(** [point.mode !== currentMode], with [currentMode] a string or [null]. *)
Definition mode_differs (point : Point) (currentMode : option string) : bool :=
  match currentMode with
  | Some m => negb (String.eqb (mode point) m)
  | None => true
  end.

(** The callback of [graphData.forEach]. *)
Definition zoneStep (st : ZoneScan) (point : Point) (index : Z) : ZoneScan :=
  if mode_differs point (currentMode st) then
    {| zones :=
         match currentMode st with
         | Some m =>
           zones st ++ [ {| zone_start := startIndex st; zone_end := index - 1; zone_mode := m |} ]
         | None => zones st
         end;
       currentMode := Some (mode point);
       startIndex := index |}
  else st.

Fixpoint scanZones (st : ZoneScan) (index : Z) (points : list Point) : ZoneScan :=
  match points with
  | [] => st
  | point :: rest => scanZones (zoneStep st point index) (index + 1) rest
  end.

Definition processModeZones (graphData : list Point) : list Zone :=
  let st := scanZones {| zones := []; currentMode := None; startIndex := 0 |} 0 graphData in
  match currentMode st with
  | Some m =>
    zones st ++ [ {| zone_start := startIndex st;
                     zone_end := Z.of_nat (length graphData) - 1;
                     zone_mode := m |} ]
  | None => zones st
  end.

(** The modes a zone stands for, one for each of its indices. *)
Definition zone_modes (z : Zone) : list string :=
  replicate (Z.to_nat (zone_end z - zone_start z + 1)) (zone_mode z).

(** The zones follow one another from index [from] up to, not including,
    index [to], and none is empty. *)
Fixpoint tiles (from : Z) (zs : list Zone) (to : Z) : Prop :=
  match zs with
  | [] => from = to
  | z :: rest => zone_start z = from /\ from <= zone_end z /\ tiles (zone_end z + 1) rest to
  end.

(** Two zones in a row never have the same mode. *)
Fixpoint modes_alternate (zs : list Zone) : Prop :=
  match zs with
  | [] => True
  | z :: rest =>
    match rest with
    | [] => True
    | z' :: _ => zone_mode z <> zone_mode z'
    end /\ modes_alternate rest
  end.

(** What the variables of [processModeZones] say after the points [seen]. *)
Definition scan_invariant (st : ZoneScan) (seen : list Point) : Prop :=
  match currentMode st with
  | None => seen = [] /\ zones st = []
  | Some m =>
    0 <= startIndex st < Z.of_nat (length seen) /\
    tiles 0 (zones st) (startIndex st) /\
    flat_map zone_modes (zones st)
      ++ replicate (Z.to_nat (Z.of_nat (length seen) - startIndex st)) m
    = map mode seen /\
    modes_alternate (zones st) /\
    (forall z, last (zones st) = Some z -> zone_mode z <> m)
  end.

(** [s.split(sep)] for a separator of one character. *)
Fixpoint split_on (sep : Ascii.ascii) (s : string) : list string :=
  match s with
  | EmptyString => [EmptyString]
  | String c rest =>
    if Ascii.eqb c sep then EmptyString :: split_on sep rest
    else
      match split_on sep rest with
      | head :: tail => String c head :: tail
      | [] => [String c EmptyString]
      end
  end.

(** A gap of the chart ([start], [end] and [duration] in the source). *)
Record Gap : Type := {
  gap_start : string;
  gap_end : string;
  duration : number
}.

Section MissingDataGaps.

(** The builtin [Number], on strings. *)
Variable Number : string -> number.

(** [hour * 60 + min] for [[hour, min] = time.split(':').map(Number)]; a part
    that is not there is [undefined], and the sum is [NaN]. *)
Definition minutesOfDay (t : string) : number :=
  let parts := map Number (split_on ":" t) in
  let part i := match parts !! i with Some x => x | None => NaN end in
  num_add (num_mul (part 0%nat) (Fin 60)) (part 1%nat).

(** The loop over [i >= 1], with [prev = graphData[i - 1]]. *)
Fixpoint gapsFrom (prev : Point) (rest : list Point) : list Gap :=
  match rest with
  | [] => []
  | curr :: rest' =>
    let timeDiff := num_sub (minutesOfDay (time curr)) (minutesOfDay (time prev)) in
    (if num_gt timeDiff (Fin 6) then
       [ {| gap_start := time prev; gap_end := time curr;
            duration := num_sub timeDiff (Fin 5) |} ]
     else [])
    ++ gapsFrom curr rest'
  end.

Definition missingDataGaps (graphData : list Point) : list Gap :=
  match graphData with
  | [] => []
  | first :: rest => gapsFrom first rest
  end.

End MissingDataGaps.

(** Each sample of [ms] comes five minutes after the one before it, or more
    than six; the first one after [prev]. *)
Fixpoint on_grid (prev : Z) (ms : list Z) : Prop :=
  match ms with
  | [] => True
  | m :: rest => (m - prev = 5 \/ 6 < m - prev) /\ on_grid m rest
  end.

(** [Number] on the decimal strings of the examples. *)
Definition Number_decimal (s : string) : number :=
  match s with
  | EmptyString => Fin 0
  | _ => parseFloat_decimal s
  end.

(** Four samples of a morning, twenty minutes missing after the second. *)
Definition morningPoints : list Point :=
  [ {| time := "08:00"; pv_power := Fin 100; load_power := Fin 300; mode := "Line Mode" |};
    {| time := "08:05"; pv_power := Fin 120; load_power := Fin 300; mode := "Line Mode" |};
    {| time := "08:30"; pv_power := Fin 150; load_power := Fin 310; mode := "Battery Mode" |};
    {| time := "08:35"; pv_power := Fin 150; load_power := Fin 310; mode := "Line Mode" |} ].

(** * Proofs *)

(** ** Rounding *)

Local Open Scope Q_scope.

Lemma Qltb_spec (x y : Q) : Qltb x y = true <-> x < y.
Proof.
  unfold Qltb. rewrite negb_true_iff. split.
  - intros H. apply Qnot_le_lt. intros Hle. apply Qle_bool_iff in Hle. congruence.
  - intros H. destruct (Qle_bool y x) eqn:E; [|reflexivity].
    apply Qle_bool_iff in E. exfalso. apply (Qlt_not_le _ _ H E).
Qed.

Lemma Qfloor_bounds (x : Q) : inject_Z (Qfloor x) <= x /\ x < inject_Z (Qfloor x) + 1.
Proof.
  split; [apply Qfloor_le|].
  pose proof (Qlt_floor x) as H. rewrite inject_Z_plus in H. exact H.
Qed.

Lemma Qfloor_unique (x : Q) (n : Z) : inject_Z n <= x -> x < inject_Z n + 1 -> Qfloor x = n.
Proof.
  intros Hlo Hhi. destruct (Qfloor_bounds x) as [H1 H2].
  assert (inject_Z (Qfloor x) < inject_Z (n + 1)) as Ha
    by (rewrite inject_Z_plus; change (inject_Z 1) with 1; lra).
  assert (inject_Z n < inject_Z (Qfloor x + 1)) as Hb
    by (rewrite inject_Z_plus; change (inject_Z 1) with 1; lra).
  rewrite <- Zlt_Qlt in Ha, Hb. lia.
Qed.

Lemma Qround_half_up_Z (n : Z) : Qround_half_up (inject_Z n) = n.
Proof. unfold Qround_half_up. apply Qfloor_unique; lra. Qed.

Lemma round_kwh_Fin (x : Q) :
  round_kwh (Fin x) = Fin (inject_Z (Qround_half_up (x * 100)) / 100).
Proof. reflexivity. Qed.

Local Close Scope Q_scope.

(** ** Numbers and formatting on examples *)

Example parseFloat_decimal_ex1 : parseFloat_decimal "230.5" = Fin (461 # 2).
Proof. reflexivity. Qed.
Example parseFloat_decimal_ex2 : parseFloat_decimal "" = NaN.
Proof. reflexivity. Qed.
Example formatHours_ex : formatHours ((8 * 5) / 60) = "0 hr 40 min".
Proof. vm_compute. reflexivity. Qed.

(** ** The monad *)

Ltac unfold_monad :=
  unfold settingsStorage_get, settingsStorage_set;
  unfold bind, ret, when, get_state, modify, send, loadSettings, saveSettings.

Lemma bind_ret_l {A B : Type} (a : A) (k : A -> M B) (e : Env) :
  bind (ret a) k e = k a e.
Proof. unfold bind, ret. destruct (k a e) as [[b e2] out2]. reflexivity. Qed.

Lemma bind_ret_r {A : Type} (m : M A) (e : Env) : bind m ret e = m e.
Proof.
  unfold bind, ret. destruct (m e) as [[a e1] out1]. rewrite app_nil_r. reflexivity.
Qed.

(** ** Debounced runs, for any monitor with an edge, a quiet period and a reminder *)

Section Debounce.

Context {I : Type}.
Variables (check : Z -> I -> M unit) (holds : I -> Prop) (alert : I -> Alert).
Variables (cadence : Z) (inactive : Env -> Prop) (active : Z -> Env -> Prop).

Hypothesis fresh_edge : forall now i e,
  holds i -> inactive e ->
  exists e', check now i e = (tt, e', [alert i]) /\ active now e'.
Hypothesis quiet : forall now i t0 e,
  holds i -> active t0 e -> now - t0 < cadence ->
  exists e', check now i e = (tt, e', []) /\ active t0 e'.
Hypothesis reminder : forall now i t0 e,
  holds i -> active t0 e -> cadence <= now - t0 ->
  exists e', check now i e = (tt, e', [alert i]) /\ active now e'.

Lemma trace_quiet (t0 : Z) (cs : list (Z * I)) (e : Env) :
  active t0 e -> Forall holds (map snd cs) -> within cadence t0 (map fst cs) ->
  trace (checks_at check cs) e = map (fun _ => []) cs.
Proof.
  revert e. induction cs as [|[t i] cs IH]; intros e Hact Hholds Hwithin; [reflexivity|].
  cbn in Hholds, Hwithin. apply Forall_cons in Hholds as [Hi Hholds].
  apply Forall_cons in Hwithin as [Ht Hwithin].
  destruct (quiet t i t0 e Hi Hact Ht) as (e' & Hstep & Hact').
  cbn. rewrite Hstep. f_equal. apply IH; assumption.
Qed.

Lemma trace_first_only (t0 : Z) (i0 : I) (cs : list (Z * I)) (e : Env) :
  inactive e -> holds i0 -> Forall holds (map snd cs) -> within cadence t0 (map fst cs) ->
  trace (checks_at check ((t0, i0) :: cs)) e = [alert i0] :: map (fun _ => []) cs.
Proof.
  intros Hin Hi0 Hholds Hwithin.
  destruct (fresh_edge t0 i0 e Hi0 Hin) as (e' & Hstep & Hact).
  cbn. rewrite Hstep. f_equal. apply (trace_quiet t0); assumption.
Qed.

Lemma trace_reminders (t0 : Z) (cs : list (Z * I)) (e : Env) :
  active t0 e -> Forall holds (map snd cs) -> spaced cadence t0 (map fst cs) ->
  trace (checks_at check cs) e = map (fun c => [alert (snd c)]) cs.
Proof.
  revert t0 e. induction cs as [|[t i] cs IH]; intros t0 e Hact Hholds Hsp; [reflexivity|].
  cbn in Hholds, Hsp. apply Forall_cons in Hholds as [Hi Hholds]. destruct Hsp as [Ht Hsp].
  destruct (reminder t i t0 e Hi Hact Ht) as (e' & Hstep & Hact').
  cbn. rewrite Hstep. f_equal. apply (IH t); assumption.
Qed.

Lemma trace_every_check (t0 : Z) (i0 : I) (cs : list (Z * I)) (e : Env) :
  inactive e -> holds i0 -> Forall holds (map snd cs) -> spaced cadence t0 (map fst cs) ->
  trace (checks_at check ((t0, i0) :: cs)) e = map (fun c => [alert (snd c)]) ((t0, i0) :: cs).
Proof.
  intros Hin Hi0 Hholds Hsp.
  destruct (fresh_edge t0 i0 e Hi0 Hin) as (e' & Hstep & Hact).
  cbn. rewrite Hstep. f_equal. apply (trace_reminders t0); assumption.
Qed.

End Debounce.

Lemma elapsed_lt (t0 now c : Z) : now - t0 < c -> elapsed_at_least (Some t0) now c = false.
Proof. intros H. unfold elapsed_at_least. rewrite Z.geb_leb. apply Z.leb_gt. exact H. Qed.

Lemma elapsed_ge (t0 now c : Z) : c <= now - t0 -> elapsed_at_least (Some t0) now c = true.
Proof. intros H. unfold elapsed_at_least. rewrite Z.geb_leb. apply Z.leb_le. exact H. Qed.

Ltac step_monad := unfold_monad; cbn -[elapsed_at_least Z.mul].

(** ** The steps of each monitor *)

(** *** Reset monitor *)

Lemma deviating_eqb (p : string) :
  deviating p -> String.eqb p "Unknown" = false /\ String.eqb p EXPECTED_OUTPUT_PRIORITY = false.
Proof. intros [H1 H2]. split; apply String.eqb_neq; assumption. Qed.

Lemma reset_fresh_edge now p e :
  deviating p -> reset_inactive e ->
  exists e', checkSystemReset now p e = (tt, e', [SystemResetAlert p]) /\ reset_active now e'.
Proof.
  intros Hdev Hin. destruct (deviating_eqb p Hdev) as [E1 E2].
  unfold checkSystemReset. rewrite E1, E2. unfold_monad. cbn.
  unfold reset_inactive in Hin. rewrite Hin. cbn.
  eexists. split; [reflexivity|]. split; reflexivity.
Qed.

Lemma reset_quiet now p t0 e :
  deviating p -> reset_active t0 e -> now - t0 < 60 * 60 * 1000 ->
  exists e', checkSystemReset now p e = (tt, e', []) /\ reset_active t0 e'.
Proof.
  intros Hdev [Hd Hl] Hlt. destruct (deviating_eqb p Hdev) as [E1 E2].
  unfold checkSystemReset. rewrite E1, E2. step_monad.
  rewrite Hd, Hl, (elapsed_lt _ _ _ Hlt). cbn. eexists. split; [reflexivity|]. split; assumption.
Qed.

Lemma reset_reminder now p t0 e :
  deviating p -> reset_active t0 e -> 60 * 60 * 1000 <= now - t0 ->
  exists e', checkSystemReset now p e = (tt, e', [SystemResetAlert p]) /\ reset_active now e'.
Proof.
  intros Hdev [Hd Hl] Hge. destruct (deviating_eqb p Hdev) as [E1 E2].
  unfold checkSystemReset. rewrite E1, E2. step_monad.
  rewrite Hd, Hl, (elapsed_ge _ _ _ Hge). cbn. eexists. split; [reflexivity|]. split; reflexivity.
Qed.

(** *** Undervoltage monitor *)

Lemma shedding_fresh_edge cfg now v e :
  isVoltageBelow cfg v = true -> shedding_inactive e ->
  exists e', checkLoadShedding cfg now v e = (tt, e', [LoadSheddingAlert v])
             /\ shedding_active now e'.
Proof.
  intros Hv Hin. unfold checkLoadShedding. rewrite Hv. step_monad.
  unfold shedding_inactive in Hin. rewrite Hin. cbn.
  eexists. split; [reflexivity|]. split; reflexivity.
Qed.

Lemma shedding_quiet cfg now v t0 e :
  isVoltageBelow cfg v = true -> shedding_active t0 e -> now - t0 < 5 * 60 * 60 * 1000 ->
  exists e', checkLoadShedding cfg now v e = (tt, e', []) /\ shedding_active t0 e'.
Proof.
  intros Hv [Ha Hl] Hlt. unfold checkLoadShedding. rewrite Hv. step_monad.
  rewrite Ha, Hl, (elapsed_lt _ _ _ Hlt). cbn.
  eexists. split; [reflexivity|]. split; assumption.
Qed.


(** *** Export-disabled monitor, past the edge *)




(** *** Staleness monitor *)

Lemma checkSystemOffline_offline cfg now e :
  systemOnline (state e) = false -> checkSystemOffline cfg now e = (tt, e, []).
Proof.
  intros H. unfold checkSystemOffline. step_monad. rewrite H, andb_false_r.
  destruct e; reflexivity.
Qed.

Lemma checkSystemOffline_online cfg now e :
  systemOnline (state e) = true ->
  checkSystemOffline cfg now e =
    if now - lastDataTimestamp (state e) >? systemOfflineThresholdMinutes cfg * 60 * 1000
    then (tt,
          {| state := set_lastSystemOfflineAlertTime (Some now)
                        (set_systemOnline false (state e));
             storage := storage e |},
          [SystemOfflineAlert ((now - lastDataTimestamp (state e)) / 60000)])
    else (tt, e, []).
Proof.
  intros H. unfold checkSystemOffline. step_monad. rewrite H, andb_true_r.
  destruct (_ >? _); [reflexivity|]. destruct e; reflexivity.
Qed.

Lemma runAllChecks_failed pf cfg p e :
  fetchFailed p = true ->
  runAllChecks pf cfg p e = checkSystemOffline cfg (now_offline p) e.
Proof.
  intros H. unfold runAllChecks, getCurrentSystemData, fetchFailed in *.
  destruct (dailyData p) as [[|r rows]|]; try discriminate;
    cbn [last]; rewrite bind_ret_l; cbn [success noSystemData when];
    rewrite bind_ret_l; reflexivity.
Qed.

Lemma staleness_no_reminder pf cfg (polls : list Poll) (e : Env) :
  systemOnline (state e) = false ->
  Forall (fun p => fetchFailed p = true) polls ->
  trace (map (runAllChecks pf cfg) polls) e = map (fun _ => []) polls.
Proof.
  intros Hoff Hfail. induction Hfail as [|p polls Hp _ IH]; [reflexivity|].
  cbn. rewrite (runAllChecks_failed _ _ _ _ Hp), (checkSystemOffline_offline _ _ _ Hoff).
  f_equal. exact IH.
Qed.


(** ** What the other monitors leave untouched *)

Lemma frame_ret {A : Type} (a : A) : staleness_frame (ret a).
Proof. intros e. cbn. repeat split. constructor. Qed.

Lemma frame_bind {A B : Type} (m : M A) (k : A -> M B) :
  staleness_frame m -> (forall a, staleness_frame (k a)) -> staleness_frame (bind m k).
Proof.
  intros Hm Hk e. unfold bind. specialize (Hm e).
  destruct (m e) as [[a e1] out1]. specialize (Hk a e1).
  destruct (k a e1) as [[b e2] out2]. cbn in *.
  destruct Hm as (H1 & H2 & H3 & Hm), Hk as (K1 & K2 & K3 & Hk).
  repeat split; [congruence | congruence | congruence |].
  apply Forall_app. split; assumption.
Qed.

Lemma frame_when (b : bool) (m : M unit) : staleness_frame m -> staleness_frame (when b m).
Proof. intros Hm. destruct b; [exact Hm | apply frame_ret]. Qed.

Lemma frame_get_state : staleness_frame get_state.
Proof. intros e. cbn. repeat split. constructor. Qed.

Lemma frame_modify (f : MonitoringState -> MonitoringState) :
  (forall s, lastDataTimestamp (f s) = lastDataTimestamp s
             /\ systemOnline (f s) = systemOnline s
             /\ lastSystemOfflineAlertTime (f s) = lastSystemOfflineAlertTime s) ->
  staleness_frame (modify f).
Proof. intros Hf e. cbn. destruct (Hf (state e)) as (-> & -> & ->). repeat split. constructor. Qed.

Lemma frame_send (a : Alert) : not_offline_alert a -> staleness_frame (send a).
Proof. intros Ha e. cbn. repeat split. constructor; [exact Ha | constructor]. Qed.

Lemma frame_storage_get (key : string) (d : bool) : staleness_frame (settingsStorage_get key d).
Proof. intros e. cbn. repeat split. constructor. Qed.

Lemma frame_storage_set (key : string) (v : bool) : staleness_frame (settingsStorage_set key v).
Proof. intros e. cbn. repeat split. constructor. Qed.

Ltac frame_step :=
  first
    [ apply frame_ret
    | apply frame_get_state
    | apply frame_storage_get
    | apply frame_storage_set
    | apply frame_send; exact I
    | apply frame_modify; intros; repeat split
    | apply frame_when
    | apply frame_bind; [|intros]
    | match goal with
      | |- staleness_frame (if ?b then _ else _) => destruct b
      | |- staleness_frame (match ?x with _ => _ end) => destruct x
      end ].

Ltac frame := repeat frame_step.

Lemma frame_checkSystemReset now p : staleness_frame (checkSystemReset now p).
Proof. unfold checkSystemReset. frame. Qed.

Lemma frame_checkLoadShedding cfg now v : staleness_frame (checkLoadShedding cfg now v).
Proof. unfold checkLoadShedding. frame. Qed.

Lemma frame_checkGridFeed cfg now b : staleness_frame (checkGridFeed cfg now b).
Proof. unfold checkGridFeed. frame. Qed.

Lemma frame_getGridFeedStatus pf dat hour : staleness_frame (getGridFeedStatus pf dat hour).
Proof. unfold getGridFeedStatus. frame. Qed.

(** ** Runs *)

Lemma trace_app (a b : list (M unit)) (e : Env) :
  trace (a ++ b) e = trace a e ++ trace b (exec a e).
Proof.
  revert e. induction a as [|m a IH]; intros e; [reflexivity|].
  cbn. destruct (m e) as [[u e'] out]. rewrite IH. reflexivity.
Qed.




(** ** C1: the debounce property *)

Lemma debounce_reset (e : Env) (t0 : Z) (p0 : string) (cs : list (Z * string)) :
  reset_inactive e -> deviating p0 -> Forall deviating (map snd cs) ->
  (within (60 * 60 * 1000) t0 (map fst cs) ->
   trace (checks_at checkSystemReset ((t0, p0) :: cs)) e
   = [SystemResetAlert p0] :: map (fun _ => []) cs)
  /\ (spaced (60 * 60 * 1000) t0 (map fst cs) ->
      trace (checks_at checkSystemReset ((t0, p0) :: cs)) e
      = map (fun c => [SystemResetAlert (snd c)]) ((t0, p0) :: cs)).
Proof.
  intros Hin Hp0 Hcs. split; intros Ht.
  - apply (trace_first_only checkSystemReset deviating SystemResetAlert (60 * 60 * 1000)
             reset_inactive reset_active reset_fresh_edge reset_quiet); assumption.
  - apply (trace_every_check checkSystemReset deviating SystemResetAlert (60 * 60 * 1000)
             reset_inactive reset_active reset_fresh_edge reset_reminder); assumption.
Qed.






(** ** C2: the edge-clear property *)

Lemma reset_clears now e :
  exists e', checkSystemReset now EXPECTED_OUTPUT_PRIORITY e = (tt, e', [])
             /\ systemResetDetected (state e') = false
             /\ lastResetAlertTime (state e') = None.
Proof.
  unfold checkSystemReset. step_monad. eexists. split; [reflexivity|]. split; reflexivity.
Qed.

Lemma shedding_clears cfg now v e :
  num_gt v (Fin (loadSheddingVoltageThreshold cfg)) = true ->
  isVoltageBelow cfg v = false ->
  exists e', checkLoadShedding cfg now v e = (tt, e', [])
             /\ isLoadShedding (state e') = false
             /\ lastLoadSheddingAlertTime (state e') = None.
Proof.
  intros Hgt Hnb. unfold checkLoadShedding. rewrite Hnb, Hgt. step_monad.
  eexists. split; [reflexivity|]. split; reflexivity.
Qed.

Lemma feed_clears cfg now e :
  exists e', checkGridFeed cfg now true e = (tt, e', [])
             /\ lastGridFeedCheck (state e') = None
             /\ gridFeedingEnabled (state e') = true.
Proof.
  unfold checkGridFeed. step_monad. rewrite andb_false_r. cbn.
  eexists. split; [reflexivity|]. split; reflexivity.
Qed.

Lemma num_lt_irrefl (x : Q) : num_lt (Fin x) (Fin x) = false.
Proof.
  cbn. unfold Qltb. apply negb_false_iff. apply Qle_bool_iff. apply Qle_refl.
Qed.

(** A reading equal to the threshold takes neither branch of
    [checkLoadShedding]: nothing is sent and nothing is reset. *)
Lemma checkLoadShedding_at_threshold cfg now e :
  checkLoadShedding cfg now (Fin (loadSheddingVoltageThreshold cfg)) e = (tt, e, []).
Proof.
  unfold checkLoadShedding, isVoltageBelow, num_gt.
  rewrite num_lt_irrefl, andb_false_r. reflexivity.
Qed.

(** C2 at the reading the code misses.  A reading equal to the threshold is
    not below it, yet [checkLoadShedding] leaves the state as it is on such a
    reading, whatever the threshold.  With the threshold at 180 V: an alert at
    170 V, then a normal reading of exactly 180 V five minutes later, then
    170 V again; the reading at the threshold leaves the last-alert time in
    place, and the recurrence is not alerted. *)
Theorem edge_clear_missed_at_threshold :
  let run := checks_at (checkLoadShedding defaultConfig)
               [(0, Fin 170); (300000, Fin 180); (600000, Fin 170)] in
  (forall (cfg : Config) (now : Z) (e : Env),
      isVoltageBelow cfg (Fin (loadSheddingVoltageThreshold cfg)) = false
      /\ checkLoadShedding cfg now (Fin (loadSheddingVoltageThreshold cfg)) e = (tt, e, []))
  /\ lastLoadSheddingAlertTime (state (exec (firstn 2 run) (freshEnv 0))) = Some 0
  /\ trace run (freshEnv 0) = [[LoadSheddingAlert (Fin 170)]; []; []].
Proof.
  intros run. split.
  - intros cfg now e. split; [|apply checkLoadShedding_at_threshold].
    unfold isVoltageBelow. rewrite num_lt_irrefl. apply andb_false_r.
  - vm_compute. split; reflexivity.
Qed.

(** After a check at "enabled", the next check at "disabled" alerts, whatever
    the two remembered statuses were. *)
Lemma feed_recurrence_alerts cfg t t' e :
  trace [checkGridFeed cfg t true; checkGridFeed cfg t' false] e
  = [[]; [GridFeedDisabledAlert]].
Proof.
  destruct (feed_clears cfg t e) as (e' & Hstep & Hlast & _).
  cbn [trace]. rewrite Hstep. f_equal.
  unfold checkGridFeed. step_monad. rewrite Hlast.
  destruct (previousGridFeedStatus (state e')); reflexivity.
Qed.

(** The start with the export flag persisted as disabled. *)
Lemma feed_settled_at_start :
  feed_settled None (env_of (initializeGridFeedStatus disabledFlagEnv)).
Proof. vm_compute. repeat split. Qed.

(** The export monitor at the edge: [previousGridFeedStatus] takes the status
    remembered before the check, not the one just seen, so the second of two
    consecutive "disabled" checks still sees "enabled" there and alerts again. *)
Example feed_edge_alerts_twice :
  trace (map (fun t => checkGridFeed defaultConfig t false) [0; 300000; 600000; 900000])
    (freshEnv 0)
  = [[GridFeedDisabledAlert]; [GridFeedDisabledAlert]; []; []].
Proof. reflexivity. Qed.

(** ** C3 and C4: the staleness monitor *)

(** C3, as amended.  A failed fetch brings an alert on that pass exactly when
    more than [systemOfflineThresholdMinutes] have passed since the last
    successful fetch and the system is still marked online; the alert carries
    the whole minutes elapsed.  Nothing else of the state matters: no other
    monitor's timer, and no other monitor runs on that pass. *)
Theorem staleness_alert_after_threshold
    (parseFloat : string -> number) (cfg : Config) (p : Poll) (e : Env) :
  fetchFailed p = true ->
  alerts_of (runAllChecks parseFloat cfg p e) =
    if (now_offline p - lastDataTimestamp (state e)
          >? systemOfflineThresholdMinutes cfg * 60 * 1000)
       && systemOnline (state e)
    then [SystemOfflineAlert ((now_offline p - lastDataTimestamp (state e)) / 60000)]
    else [].
Proof.
  intros Hfail. rewrite (runAllChecks_failed _ _ _ _ Hfail).
  destruct (systemOnline (state e)) eqn:Hon.
  - rewrite (checkSystemOffline_online _ _ _ Hon), andb_true_r.
    destruct (_ >? _); reflexivity.
  - rewrite (checkSystemOffline_offline _ _ _ Hon), andb_false_r. reflexivity.
Qed.

Lemma staleness_alert_after_threshold_witness :
  fetchFailed (failedPoll 3600000) = true
  /\ alerts_of (runAllChecks parseFloat_decimal defaultConfig (failedPoll 3600000) (freshEnv 0))
     = [SystemOfflineAlert 60].
Proof.
  split; [reflexivity|].
  exact (staleness_alert_after_threshold parseFloat_decimal defaultConfig
           (failedPoll 3600000) (freshEnv 0) eq_refl).
Defined.

(** C3 as stated fails: a fetch succeeds at time 0, the next one, five
    minutes later, fails, and that pass sends nothing. *)
Lemma failed_fetch_within_threshold_is_silent :
  let e1 := env_of (runAllChecks parseFloat_decimal defaultConfig (quietPoll 0) (freshEnv 0)) in
  fetchFailed (quietPoll 0) = false
  /\ fetchFailed (failedPoll 300000) = true
  /\ ~ exactly_one_alert
         (alerts_of (runAllChecks parseFloat_decimal defaultConfig (failedPoll 300000) e1)).
Proof. vm_compute. repeat split. discriminate. Qed.

Lemma updateDataTimestamp_spec now e :
  exists e', updateDataTimestamp now e = (tt, e', [])
             /\ lastDataTimestamp (state e') = now
             /\ systemOnline (state e') = true
             /\ (systemOnline (state e) = false -> lastSystemOfflineAlertTime (state e') = None).
Proof.
  unfold updateDataTimestamp. step_monad.
  destruct (systemOnline (state e)) eqn:Hon; cbn;
    (eexists; split; [reflexivity|]); cbn; repeat split; auto; discriminate.
Qed.

Lemma getCurrentSystemData_success pf p e :
  fetchFailed p = false ->
  exists sd, getCurrentSystemData pf (dailyData p) (now_fetch p) e
             = (sd, env_of (updateDataTimestamp (now_fetch p) e), [])
             /\ success sd = true.
Proof.
  intros Hok. unfold getCurrentSystemData, fetchFailed in *.
  destruct (dailyData p) as [rows|]; [|discriminate].
  destruct (last rows) as [latestRow|] eqn:Hlast.
  - destruct (updateDataTimestamp_spec (now_fetch p) e) as (e' & Hup & _).
    unfold bind. rewrite Hup. cbn. eexists. split; reflexivity.
  - destruct rows as [|r rows]; [discriminate|].
    apply last_None in Hlast. discriminate.
Qed.

(** C4, as amended.  On the first pass whose fetch succeeds while the system
    is marked offline, the fetch itself sends nothing: it marks the system
    online, clears the last offline-alert time and stamps the data time.  What
    the staleness monitor does on the rest of the pass depends on the clock of
    its closing check alone.  When that check comes no more than the threshold
    after the fetch, the pass sends no notification of the staleness monitor
    and ends online; when it comes later, the check sends the offline alert as
    the last notification of the pass and the pass ends offline again. *)
Theorem recovery_is_silent
    (parseFloat : string -> number) (cfg : Config) (p : Poll) (e : Env) :
  fetchFailed p = false ->
  systemOnline (state e) = false ->
  let fetched := getCurrentSystemData parseFloat (dailyData p) (now_fetch p) e in
  let r := runAllChecks parseFloat cfg p e in
  alerts_of fetched = []
  /\ systemOnline (state (env_of fetched)) = true
  /\ lastSystemOfflineAlertTime (state (env_of fetched)) = None
  /\ lastDataTimestamp (state (env_of fetched)) = now_fetch p
  /\ lastDataTimestamp (state (env_of r)) = now_fetch p
  /\ (if now_offline p - now_fetch p >? systemOfflineThresholdMinutes cfg * 60 * 1000
      then exists out : list Alert,
          alerts_of r
          = out ++ [SystemOfflineAlert ((now_offline p - now_fetch p) / 60000)]
          /\ Forall not_offline_alert out
          /\ systemOnline (state (env_of r)) = false
          /\ lastSystemOfflineAlertTime (state (env_of r)) = Some (now_offline p)
      else Forall not_offline_alert (alerts_of r)
           /\ systemOnline (state (env_of r)) = true
           /\ lastSystemOfflineAlertTime (state (env_of r)) = None).
Proof.
  intros Hok Hoff fetched r. unfold fetched, r.
  destruct (getCurrentSystemData_success parseFloat p e Hok) as (sd & Hget & Hsd).
  destruct (updateDataTimestamp_spec (now_fetch p) e) as (e1 & Hup & Hts & Hon & Hclr).
  rewrite Hup in Hget. cbn [env_of fst snd] in Hget. specialize (Hclr Hoff).
  rewrite Hget. cbn [alerts_of env_of fst snd].
  split; [reflexivity|]. split; [exact Hon|]. split; [exact Hclr|]. split; [exact Hts|].
  assert (exists e2 out2,
             runAllChecks parseFloat cfg p e
             = (let '(u, e3, out3) := checkSystemOffline cfg (now_offline p) e2 in
                (u, e3, out2 ++ out3))
             /\ Forall not_offline_alert out2
             /\ systemOnline (state e2) = true
             /\ lastSystemOfflineAlertTime (state e2) = None
             /\ lastDataTimestamp (state e2) = now_fetch p)
    as (e2 & out2 & Hrun & Fout & Hon2 & Hclr2 & Hts2).
  { unfold runAllChecks. unfold bind at 1. rewrite Hget, Hsd. cbn [when].
    set (middle :=
           (when (negb (String.eqb (outputPriority sd) "Unknown"))
              (checkSystemReset (now_reset p) (outputPriority sd)) ;;
            when (num_gt (gridVoltage sd) (Fin 0))
              (checkLoadShedding cfg (now_shedding p) (gridVoltage sd)) ;;
            gridFeedEnabled <- getGridFeedStatus parseFloat (deviceLastData p) (hour_feed p) ;;
            checkGridFeed cfg (now_feed p) gridFeedEnabled)%monitor).
    assert (staleness_frame middle) as Hframe.
    { unfold middle.
      apply frame_bind; [apply frame_when, frame_checkSystemReset|intros _].
      apply frame_bind; [apply frame_when, frame_checkLoadShedding|intros _].
      apply frame_bind; [apply frame_getGridFeedStatus|intros b].
      apply frame_checkGridFeed. }
    specialize (Hframe e1). unfold bind.
    destruct (middle e1) as [[u e2] out2]. cbn [env_of alerts_of fst snd] in Hframe.
    destruct Hframe as (Fts & Fon & Fclr & Fout).
    exists e2, out2. cbn [app].
    split; [destruct (checkSystemOffline cfg (now_offline p) e2) as [[u3 e3] out3];
            reflexivity|].
    split; [exact Fout|]. repeat split; congruence. }
  rewrite Hrun, (checkSystemOffline_online _ _ _ Hon2), Hts2.
  destruct (now_offline p - now_fetch p >? systemOfflineThresholdMinutes cfg * 60 * 1000);
    cbn [env_of alerts_of fst snd state].
  - split; [exact Hts2|].
    exists out2. split; [reflexivity|]. split; [exact Fout|]. split; reflexivity.
  - rewrite !app_nil_r. split; [exact Hts2|]. split; [exact Fout|].
    split; [exact Hon2|exact Hclr2].
Qed.

Lemma recovery_is_silent_witness :
  fetchFailed (quietPoll 7200000) = false
  /\ systemOnline (state offlineEnv) = false
  /\ alerts_of (getCurrentSystemData parseFloat_decimal (dailyData (quietPoll 7200000))
                  7200000 offlineEnv) = []
  /\ systemOnline
       (state (env_of (runAllChecks parseFloat_decimal defaultConfig
                         (quietPoll 7200000) offlineEnv))) = true.
Proof.
  split; [reflexivity|]. split; [reflexivity|].
  pose proof (recovery_is_silent parseFloat_decimal defaultConfig (quietPoll 7200000)
                offlineEnv eq_refl eq_refl) as H.
  cbv zeta in H. destruct H as (H1 & _ & _ & _ & _ & H6).
  change (now_offline (quietPoll 7200000) - now_fetch (quietPoll 7200000)
          >? systemOfflineThresholdMinutes defaultConfig * 60 * 1000) with false in H6.
  destruct H6 as (_ & H3 & _).
  split; [exact H1 | exact H3].
Defined.

(** A recovering pass that takes longer than the threshold: with a threshold
    of zero minutes and the closing check one second after the fetch, the
    pass that finds the data again sends the offline alert and ends offline. *)
Example slow_recovery_alerts_again :
  let cfg := {| gridFeedAlertIntervalHours := gridFeedAlertIntervalHours defaultConfig;
                loadSheddingVoltageThreshold := loadSheddingVoltageThreshold defaultConfig;
                systemOfflineThresholdMinutes := 0;
                lowProductionThresholdWatts := lowProductionThresholdWatts defaultConfig |} in
  let p := {| dailyData := dailyData (quietPoll 7200000);
              deviceLastData := None;
              now_fetch := 7200000; now_reset := 7200000; now_shedding := 7200000;
              hour_feed := 12; now_feed := 7200000; now_offline := 7201000 |} in
  alerts_of (runAllChecks parseFloat_decimal cfg p offlineEnv) = [SystemOfflineAlert 0]
  /\ systemOnline (state (env_of (runAllChecks parseFloat_decimal cfg p offlineEnv))) = false.
Proof. vm_compute. split; reflexivity. Qed.

(** C4 as stated fails: the system is marked offline after a failed fetch,
    the next fetch succeeds, and the whole pass sends no notification. *)
Lemma recovery_sends_no_alert :
  systemOnline (state offlineEnv) = false
  /\ fetchFailed (quietPoll 7200000) = false
  /\ ~ (exists a : Alert,
          List.In a (alerts_of (runAllChecks parseFloat_decimal defaultConfig
                                  (quietPoll 7200000) offlineEnv))).
Proof.
  split; [reflexivity|]. split; [reflexivity|].
  intros [a Ha]. vm_compute in Ha. exact Ha.
Qed.

(** ** C8: the reset monitor *)

Lemma checkSystemReset_unknown now e : checkSystemReset now "Unknown" e = (tt, e, []).
Proof. reflexivity. Qed.

Lemma reset_normal_run (ts : list Z) (e : Env) :
  trace (map (fun t => checkSystemReset t EXPECTED_OUTPUT_PRIORITY) ts) e
  = map (fun _ => []) ts
  /\ (ts <> [] ->
      reset_inactive (exec (map (fun t => checkSystemReset t EXPECTED_OUTPUT_PRIORITY) ts) e)).
Proof.
  revert e. induction ts as [|t ts IH]; intros e; [split; [reflexivity|congruence]|].
  destruct (reset_clears t e) as (e' & Hstep & Hd & _).
  cbn [map trace exec]. rewrite Hstep. destruct (IH e') as [Htr Hex]. split.
  - f_equal. exact Htr.
  - intros _. destruct ts as [|t' ts]; [exact Hd|]. apply Hex. discriminate.
Qed.

(** C8.  The expected priority is "Solar Utility Bat".  An unresolved
    priority, "Unknown", is a no-op of the reset monitor.  After at least one
    check at "Solar Utility Bat", three checks at another resolved priority
    ten minutes apart send one alert, on the first of them. *)
Theorem reset_scenario (e : Env) (normal : list Z) (t : Z) (p : string) :
  normal <> [] ->
  p <> "Unknown" ->
  p <> "Solar Utility Bat" ->
  EXPECTED_OUTPUT_PRIORITY = "Solar Utility Bat"
  /\ (forall now e', checkSystemReset now "Unknown" e' = (tt, e', []))
  /\ trace (map (fun t' => checkSystemReset t' "Solar Utility Bat") normal
            ++ checks_at checkSystemReset
                 [(t, p); (t + 10 * 60 * 1000, p); (t + 20 * 60 * 1000, p)]) e
     = map (fun _ => []) normal ++ [[SystemResetAlert p]; []; []].
Proof.
  intros Hne Hunknown Hother.
  assert (deviating p) as Hdev by (split; assumption).
  split; [reflexivity|]. split; [exact checkSystemReset_unknown|].
  destruct (reset_normal_run normal e) as [Htr Hin].
  change "Solar Utility Bat" with EXPECTED_OUTPUT_PRIORITY.
  rewrite trace_app, Htr. f_equal.
  apply (debounce_reset _ t p [(t + 10 * 60 * 1000, p); (t + 20 * 60 * 1000, p)]).
  - apply Hin. exact Hne.
  - exact Hdev.
  - repeat (apply List.Forall_cons; [exact Hdev|]). apply List.Forall_nil.
  - repeat (apply List.Forall_cons; [cbn; lia|]). apply List.Forall_nil.
Qed.

Lemma reset_scenario_witness :
  "Utility Solar Bat" <> "Unknown"
  /\ "Utility Solar Bat" <> "Solar Utility Bat"
  /\ trace (map (fun t' => checkSystemReset t' "Solar Utility Bat")
              [0; 600000; 1200000; 1800000; 2400000; 3000000; 3600000; 4200000;
               4800000; 5400000]
            ++ checks_at checkSystemReset
                 [(6000000, "Utility Solar Bat");
                  (6000000 + 10 * 60 * 1000, "Utility Solar Bat");
                  (6000000 + 20 * 60 * 1000, "Utility Solar Bat")]) (freshEnv 0)
     = map (fun _ => []) [0; 600000; 1200000; 1800000; 2400000; 3000000; 3600000;
                          4200000; 4800000; 5400000]
       ++ [[SystemResetAlert "Utility Solar Bat"]; []; []].
Proof.
  assert ("Utility Solar Bat" <> "Unknown") as Hunknown by discriminate.
  assert ("Utility Solar Bat" <> "Solar Utility Bat") as Hother by discriminate.
  split; [exact Hunknown|]. split; [exact Hother|].
  refine (proj2 (proj2 (reset_scenario (freshEnv 0) _ 6000000 "Utility Solar Bat"
                          _ Hunknown Hother))).
  discriminate.
Defined.

(** ** C9: the undervoltage monitor *)

Lemma isVoltageBelow_spec (cfg : Config) (v : Q) :
  isVoltageBelow cfg (Fin v) = true <-> (0 < v /\ v < loadSheddingVoltageThreshold cfg)%Q.
Proof.
  unfold isVoltageBelow, num_gt, num_lt. rewrite andb_true_iff, !Qltb_spec. reflexivity.
Qed.

(** C9.  The condition of the undervoltage monitor is [0 < v < threshold], and
    the threshold defaults to 180 V.  With that threshold the readings 230,
    230, 0, 0, 170, 170 make the condition false four times and then true
    twice; from any state, the checks at these readings send one alert, at
    the fifth reading (the sixth coming less than five hours later).  A
    reading of zero changes nothing, and the driver does not even run the
    check on it. *)
Theorem undervoltage_scenario (e : Env) (t0 t1 t2 t3 t4 t5 : Z) :
  t5 - t4 < 5 * 60 * 60 * 1000 ->
  (forall (cfg : Config) (v : Q),
      isVoltageBelow cfg (Fin v) = true <-> (0 < v /\ v < loadSheddingVoltageThreshold cfg)%Q)
  /\ loadSheddingVoltageThreshold defaultConfig = 180%Q
  /\ map (isVoltageBelow defaultConfig) [Fin 230; Fin 230; Fin 0; Fin 0; Fin 170; Fin 170]
     = [false; false; false; false; true; true]
  /\ trace (checks_at (checkLoadShedding defaultConfig)
              [(t0, Fin 230); (t1, Fin 230); (t2, Fin 0); (t3, Fin 0);
               (t4, Fin 170); (t5, Fin 170)]) e
     = [[]; []; []; []; [LoadSheddingAlert (Fin 170)]; []]
  /\ (forall now e', checkLoadShedding defaultConfig now (Fin 0) e' = (tt, e', []))
  /\ num_gt (Fin 0) (Fin 0) = false.
Proof.
  intros Hlt. split; [exact isVoltageBelow_spec|]. split; [reflexivity|].
  split; [reflexivity|].
  assert (forall now e', checkLoadShedding defaultConfig now (Fin 0) e' = (tt, e', [])) as Hzero
    by reflexivity.
  split; [|split; [exact Hzero | reflexivity]].
  destruct (shedding_clears defaultConfig t0 (Fin 230) e eq_refl eq_refl) as (e1 & H1 & Hs1 & _).
  destruct (shedding_clears defaultConfig t1 (Fin 230) e1 eq_refl eq_refl) as (e2 & H2 & Hs2 & _).
  destruct (shedding_fresh_edge defaultConfig t4 (Fin 170) e2 eq_refl Hs2) as (e3 & H3 & Ha3).
  destruct (shedding_quiet defaultConfig t5 (Fin 170) t4 e3 eq_refl Ha3 Hlt) as (e4 & H4 & _).
  unfold checks_at. cbn [map fst snd trace].
  rewrite H1, H2, !Hzero, H3, H4. reflexivity.
Qed.

Lemma undervoltage_scenario_witness :
  1500000 - 1200000 < 5 * 60 * 60 * 1000
  /\ trace (checks_at (checkLoadShedding defaultConfig)
              [(0, Fin 230); (300000, Fin 230); (600000, Fin 0); (900000, Fin 0);
               (1200000, Fin 170); (1500000, Fin 170)]) (freshEnv 0)
     = [[]; []; []; []; [LoadSheddingAlert (Fin 170)]; []].
Proof.
  assert (1500000 - 1200000 < 5 * 60 * 60 * 1000) as Hlt by reflexivity.
  split; [exact Hlt|].
  exact (proj1 (proj2 (proj2 (proj2 (undervoltage_scenario (freshEnv 0) 0 300000 600000
                                       900000 1200000 1500000 Hlt))))).
Defined.

(** ** C10: the export belief *)

Lemma resolve_when_unsure (isFeeding : bool) (e : Env) :
  (savedGridStatus <- settingsStorage_get grid_feeding_enabled true ;;
   if isFeeding then ret (JBool true)
   else if json_is_false savedGridStatus then ret (JBool false)
   else ret (JBool true))%monitor e
  = (JBool (isFeeding
            || negb (json_is_false (storage_lookup grid_feeding_enabled true (storage e)))),
     e, []).
Proof.
  unfold_monad. unfold loadSettings, storage_lookup. cbn.
  destruct isFeeding; [reflexivity|].
  destruct (json_is_false _); reflexivity.
Qed.

Lemma checkGridFeed_persists cfg now (v : JsonValue) e :
  storage (env_of (checkGridFeed cfg now v e))
  = written (<[grid_feeding_enabled := v]> (settings_of (storage e))) (storage e).
Proof.
  unfold checkGridFeed. step_monad.
  destruct (previousGridFeedStatus (state e) && negb (json_truthy v)); cbn.
  - reflexivity.
  - destruct (negb (json_truthy v)); cbn; [destruct (elapsed_at_least _ _ _); cbn|];
      reflexivity.
Qed.

Lemma getGridFeedStatus_reads_only pf dat hour e :
  getGridFeedStatus pf dat hour e = (value_of (getGridFeedStatus pf dat hour e), e, []).
Proof.
  unfold getGridFeedStatus. destruct dat as [[|item dat]|]; try reflexivity.
  destruct (_ && _); [reflexivity|]. rewrite resolve_when_unsure. reflexivity.
Qed.

(** C10, as amended.  With device data, the belief is: by day (hour 7 to 17
    inclusive) and with more than 500 W of PV, whether at least 50 W are fed,
    whatever the settings file holds; otherwise enabled when at least 50 W are
    fed, and else disabled only when the file holds exactly [false] under the
    key: no file, a file that is not valid JSON, no such key or any other
    value give enabled.  Without device data the belief is the value of the
    file as it is, [true] when there is none.  Nothing is sent or changed
    while resolving.  [checkGridFeed] then writes the belief it is given over
    the settings it loads; when the write fails the file keeps its content.
    So do the two steps of the driver with the resolved belief. *)
Theorem export_belief_resolution (parseFloat : string -> number) (cfg : Config) :
  (forall (item : Item) (dat : list Item) (hour : Z) (e : Env),
      let deviceData := deviceData_of (item :: dat) in
      let isFeeding := num_ge (solarFeedPower_of parseFloat deviceData) (Fin 50) in
      getGridFeedStatus parseFloat (Some (item :: dat)) hour e
      = (JBool
           (if (hour >=? 7) && (hour <=? 17)
               && num_gt (pvPower_of parseFloat deviceData) (Fin 500)
            then isFeeding
            else isFeeding
                 || negb (json_is_false
                            (storage_lookup grid_feeding_enabled true (storage e)))),
         e, []))
  /\ (forall (hour : Z) (e : Env),
      getGridFeedStatus parseFloat None hour e
      = (storage_lookup grid_feeding_enabled true (storage e), e, [])
      /\ getGridFeedStatus parseFloat (Some []) hour e
         = (storage_lookup grid_feeding_enabled true (storage e), e, []))
  /\ (forall v : JsonValue, json_is_false v = true <-> v = JBool false)
  /\ (forall (outcomes : list bool) (settings : gmap string JsonValue),
      storage_lookup grid_feeding_enabled true
        {| parsed := None; write_outcomes := outcomes |} = JBool true
      /\ storage_lookup grid_feeding_enabled true
           {| parsed := Some (delete grid_feeding_enabled settings);
              write_outcomes := outcomes |} = JBool true)
  /\ (forall (now : Z) (gridFeedEnabled : JsonValue) (e : Env),
      let e' := env_of (checkGridFeed cfg now gridFeedEnabled e) in
      parsed (storage e')
      = (if write_succeeds (storage e)
         then Some (<[grid_feeding_enabled := gridFeedEnabled]> (settings_of (storage e)))
         else parsed (storage e))
      /\ (if write_succeeds (storage e)
          then storage_lookup grid_feeding_enabled true (storage e') = gridFeedEnabled
          else storage_lookup grid_feeding_enabled true (storage e')
               = storage_lookup grid_feeding_enabled true (storage e)))
  /\ (forall (lastData : option (list Item)) (hour now : Z) (e : Env),
      let resolved := value_of (getGridFeedStatus parseFloat lastData hour e) in
      let e' := env_of ((gridFeedEnabled <- getGridFeedStatus parseFloat lastData hour ;;
                         checkGridFeed cfg now gridFeedEnabled)%monitor e) in
      parsed (storage e')
      = (if write_succeeds (storage e)
         then Some (<[grid_feeding_enabled := resolved]> (settings_of (storage e)))
         else parsed (storage e))).
Proof.
  assert (forall now v e,
             parsed (storage (env_of (checkGridFeed cfg now v e)))
             = (if write_succeeds (storage e)
                then Some (<[grid_feeding_enabled := v]> (settings_of (storage e)))
                else parsed (storage e))) as Hwrite
    by (intros now v e; rewrite checkGridFeed_persists; reflexivity).
  split; [|split; [|split; [|split; [|split]]]].
  - intros item dat hour e deviceData isFeeding.
    unfold getGridFeedStatus. fold deviceData. fold isFeeding.
    destruct ((hour >=? 7) && (hour <=? 17)
              && num_gt (pvPower_of parseFloat deviceData) (Fin 500)).
    + reflexivity.
    + apply resolve_when_unsure.
  - intros hour e. split; reflexivity.
  - intros v. split; [|intros ->; reflexivity].
    destruct v as [|[]| | | |]; cbn; intros H; first [reflexivity | discriminate].
  - intros outcomes settings. unfold storage_lookup, settings_of. cbn [parsed]. split.
    + rewrite lookup_empty. reflexivity.
    + rewrite lookup_delete_eq. reflexivity.
  - intros now v e e'. split; [apply Hwrite|].
    pose proof (Hwrite now v e) as H. fold e' in H.
    unfold storage_lookup, settings_of. rewrite H.
    destruct (write_succeeds (storage e)).
    + rewrite lookup_insert_eq. reflexivity.
    + reflexivity.
  - intros lastData hour now e resolved e'. unfold e', resolved. unfold bind at 1.
    rewrite getGridFeedStatus_reads_only.
    set (b := value_of (getGridFeedStatus parseFloat lastData hour e)).
    pose proof (Hwrite now b e) as H.
    destruct (checkGridFeed cfg now b e) as [[u e2] out]. exact H.
Qed.

(** C10 as stated fails: at 22 h, with 30 W fed to the grid and the flag
    persisted as disabled, the specification's rule ("feeding any amount")
    gives enabled, the code gives disabled. *)
Lemma low_feed_is_not_feeding :
  let deviceData := deviceData_of lowFeedItems in
  settings_of (storage disabledFlagEnv) !! grid_feeding_enabled = Some (JBool false)
  /\ value_of (getGridFeedStatus parseFloat_decimal (Some lowFeedItems) 22 disabledFlagEnv)
     <> JBool (exportBelief_spec ((22 >=? 7) && (22 <=? 17))
                 (pvPower_of parseFloat_decimal deviceData)
                 (solarFeedPower_of parseFloat_decimal deviceData)
                 (Some false)).
Proof. vm_compute. split; [reflexivity|discriminate]. Qed.

(** A write that fails is swallowed: the check alerts and updates the state
    as ever, and the file still says enabled. *)
Example failed_write_is_swallowed :
  let e := {| state := initialState 0;
              storage := {| parsed := Some {[ grid_feeding_enabled := JBool true ]};
                            write_outcomes := [false] |} |} in
  let r := checkGridFeed defaultConfig 0 false e in
  alerts_of r = [GridFeedDisabledAlert]
  /\ gridFeedingEnabled (state (env_of r)) = false
  /\ storage_lookup grid_feeding_enabled true (storage (env_of r)) = JBool true.
Proof. vm_compute. repeat split. Qed.

(** ** C5: the energy identity *)

Local Open Scope Q_scope.

Lemma accumulate_skipped pf d acc r : retained d r = false -> accumulate pf d acc r = acc.
Proof. intros H. unfold accumulate. rewrite H. reflexivity. Qed.

Lemma totals_from_retained pf d rows acc :
  foldl (accumulate pf d) acc rows = foldl (accumulate pf d) acc (retained_rows d rows).
Proof.
  revert acc. induction rows as [|r rows IH]; intros acc; [reflexivity|].
  unfold retained_rows. destruct (retained d r) eqn:Hr.
  - rewrite filter_cons_True by exact Hr. cbn [foldl]. apply IH.
  - rewrite filter_cons_False by congruence. cbn [foldl].
    rewrite (accumulate_skipped _ _ _ _ Hr). apply IH.
Qed.

Lemma accumulate_retained pf d acc r :
  retained d r = true ->
  totalProductionWh (accumulate pf d acc r)
  = num_add (totalProductionWh acc) (num_mul (pvPower_of_row pf r) (Fin intervalHours))
  /\ totalLoadWh (accumulate pf d acc r)
     = num_add (totalLoadWh acc) (num_mul (loadPower_of_row pf r) (Fin intervalHours)).
Proof. intros Hr. unfold accumulate. rewrite Hr. split; reflexivity. Qed.

Lemma totals_running_sums pf d rows acc :
  totalProductionWh (foldl (accumulate pf d) acc rows)
  = foldl (fun a r => num_add a (num_mul (pvPower_of_row pf r) (Fin intervalHours)))
      (totalProductionWh acc) (retained_rows d rows)
  /\ totalLoadWh (foldl (accumulate pf d) acc rows)
     = foldl (fun a r => num_add a (num_mul (loadPower_of_row pf r) (Fin intervalHours)))
         (totalLoadWh acc) (retained_rows d rows).
Proof.
  revert acc. induction rows as [|r rows IH]; intros acc; [split; reflexivity|].
  cbn [foldl]. unfold retained_rows in *. destruct (retained d r) eqn:Hr.
  - rewrite filter_cons_True by exact Hr. cbn [foldl].
    destruct (IH (accumulate pf d acc r)) as [IHp IHl].
    destruct (accumulate_retained pf d acc r Hr) as [Ep El].
    rewrite Ep in IHp. rewrite El in IHl. split; assumption.
  - rewrite filter_cons_False by congruence.
    rewrite (accumulate_skipped _ _ _ _ Hr). apply IH.
Qed.

Lemma totals_are_running_sums pf d rows :
  totalProductionWh (totals pf d rows) = energyWh_spec (pvPower_of_row pf) (retained_rows d rows)
  /\ totalLoadWh (totals pf d rows) = energyWh_spec (loadPower_of_row pf) (retained_rows d rows).
Proof.
  unfold totals, energyWh_spec.
  exact (totals_running_sums pf d rows
           {| totalProductionWh := Fin 0; totalLoadWh := Fin 0;
              batteryModeHours := 0; standbyModeHours := 0 |}).
Qed.


Local Close Scope Q_scope.


(** ** C6: the completeness identity *)

Lemma retained_counted (dateStr : string) (r : Row) : retained dateStr r = counted dateStr r.
Proof.
  unfold retained, counted, fields_of. destruct (field r) as [fs|]; [|reflexivity].
  destruct (Nat.ltb_spec (length fs) 22) as [Hlt|Hge].
  - replace (22 <=? length fs)%nat with false; [reflexivity|].
    symmetry. apply Nat.leb_gt. exact Hlt.
  - replace (22 <=? length fs)%nat with true; [reflexivity|].
    symmetry. apply Nat.leb_le. exact Hge.
Qed.

Lemma actual_plus_missing (dateStr : string) (rows : list Row) :
  actualDataPoints dateStr rows + missingDataPoints dateStr rows
  = Z.max (actualDataPoints dateStr rows) expectedDataPoints.
Proof. unfold missingDataPoints. lia. Qed.

(** C6, as amended.  With 288 samples expected and the missing count clamped
    at zero, the retained samples and the missing ones add up to the 288
    expected whenever no more than 288 samples are retained; when more are
    retained, none is missing. *)
Theorem completeness_up_to_expected (dateStr : string) (rows : list Row) :
  expectedDataPoints = 288
  /\ missingDataPoints dateStr rows
     = Z.max 0 (expectedDataPoints - actualDataPoints dateStr rows)
  /\ (actualDataPoints dateStr rows <= expectedDataPoints ->
      actualDataPoints dateStr rows + missingDataPoints dateStr rows = expectedDataPoints)
  /\ (expectedDataPoints < actualDataPoints dateStr rows ->
      missingDataPoints dateStr rows = 0).
Proof.
  split; [reflexivity|]. split; [reflexivity|]. split.
  - intros Hle. rewrite actual_plus_missing. lia.
  - intros Hgt. unfold missingDataPoints. lia.
Qed.

Lemma completeness_up_to_expected_witness :
  actualDataPoints sampleDay (replicate 280 (sampleRow "2025-10-08 12:00:00" "1200" "900"))
  <= expectedDataPoints
  /\ actualDataPoints sampleDay (replicate 280 (sampleRow "2025-10-08 12:00:00" "1200" "900"))
     + missingDataPoints sampleDay
         (replicate 280 (sampleRow "2025-10-08 12:00:00" "1200" "900"))
     = expectedDataPoints.
Proof.
  assert (actualDataPoints sampleDay
            (replicate 280 (sampleRow "2025-10-08 12:00:00" "1200" "900"))
          <= expectedDataPoints) as Hle by (vm_compute; discriminate).
  split; [exact Hle|].
  exact (proj1 (proj2 (proj2 (completeness_up_to_expected sampleDay _))) Hle).
Defined.

(** C6 as stated fails: 289 rows stamped on the day (duplicates are kept)
    are all retained, none is missing, and 289 is not 288. *)
Lemma more_rows_than_expected :
  let rows := replicate 289 (sampleRow "2025-10-08 12:00:00" "1200" "900") in
  actualDataPoints sampleDay rows = 289
  /\ missingDataPoints sampleDay rows = 0
  /\ actualDataPoints sampleDay rows + missingDataPoints sampleDay rows <> expectedDataPoints.
Proof. vm_compute. repeat split. discriminate. Qed.

(** ** C7: the expected sample count *)

(** C7, as amended.  The dashboard ([fetchData]) expects 288 samples for any
    day but today and [floor(minutesSinceMidnight / 5)] for today, and derives
    the missing count from that.  [getDailyStats] takes no clock: it expects
    288 samples for every date. *)
Theorem expected_count_by_aggregator :
  (forall (date today : string) (hours minutes : Z),
      Dashboard.expectedDataPoints date today hours minutes
      = expectedSampleCount_spec (String.eqb date today) (hours * 60 + minutes))
  /\ (forall (A : Type) (graphData : list A) (date today : string) (hours minutes : Z),
      Dashboard.missingDataPoints graphData date today hours minutes
      = Z.max 0 (expectedSampleCount_spec (String.eqb date today) (hours * 60 + minutes)
                 - Z.of_nat (length graphData)))
  /\ expectedDataPoints = 288
  /\ (forall (dateStr : string) (rows : list Row),
      missingDataPoints dateStr rows = Z.max 0 (288 - actualDataPoints dateStr rows)).
Proof.
  split; [|split; [|split]].
  - intros date today hours minutes. unfold Dashboard.expectedDataPoints, expectedSampleCount_spec.
    destruct (String.eqb date today); reflexivity.
  - intros A graphData date today hours minutes.
    unfold Dashboard.missingDataPoints, Dashboard.expectedDataPoints, expectedSampleCount_spec.
    destruct (String.eqb date today); reflexivity.
  - reflexivity.
  - intros dateStr rows. reflexivity.
Qed.

(** C7 as stated fails on [getDailyStats]: asked ten minutes after midnight
    for the running day, with the two samples of that day, it still expects
    288 samples and reports 23 h 50 min of missing data; the specification
    expects two samples and nothing missing. *)
Lemma daily_stats_ignores_today :
  let rows := [sampleRow "2025-10-08 00:00:00" "0" "300";
               sampleRow "2025-10-08 00:05:00" "0" "300"] in
  expectedSampleCount_spec true (0 * 60 + 10) = 2
  /\ expectedDataPoints <> expectedSampleCount_spec true (0 * 60 + 10)
  /\ missingDataPoints sampleDay rows = 286
  /\ missing_data_hours <$> getDailyStats parseFloat_decimal (Some rows) sampleDay ""
     = Some "23 hr 50 min"
  /\ Dashboard.missingDataPoints rows sampleDay sampleDay 0 10 = 0.
Proof. vm_compute. repeat split. discriminate. Qed.

(** * Further properties of the monitors *)

(** X1.  A pass whose fetch fails runs the staleness monitor alone: the
    settings storage and every field of the state but [systemOnline] and
    [lastSystemOfflineAlertTime] are as before, and whatever is sent is an
    offline alert. *)
Theorem failed_pass_runs_staleness_only
    (parseFloat : string -> number) (cfg : Config) (p : Poll) (e : Env) :
  fetchFailed p = true ->
  storage (env_of (runAllChecks parseFloat cfg p e)) = storage e
  /\ state (env_of (runAllChecks parseFloat cfg p e))
     = keep_staleness (state (env_of (runAllChecks parseFloat cfg p e))) (state e)
  /\ Forall (fun a => exists m, a = SystemOfflineAlert m)
       (alerts_of (runAllChecks parseFloat cfg p e)).
Proof.
  intros Hfail. rewrite (runAllChecks_failed _ _ _ _ Hfail).
  destruct (systemOnline (state e)) eqn:Hon.
  - rewrite (checkSystemOffline_online _ _ _ Hon).
    destruct (_ >? _); cbn.
    + split; [reflexivity|]. split; [destruct e as [[] ?]; reflexivity|].
      constructor; [eexists; reflexivity | constructor].
    + split; [reflexivity|]. split; [destruct e as [[] ?]; reflexivity | constructor].
  - rewrite (checkSystemOffline_offline _ _ _ Hon). cbn.
    split; [reflexivity|]. split; [destruct e as [[] ?]; reflexivity | constructor].
Qed.

Lemma failed_pass_runs_staleness_only_witness :
  fetchFailed (failedPoll 3600000) = true
  /\ storage (env_of (runAllChecks parseFloat_decimal defaultConfig (failedPoll 3600000)
                        disabledFlagEnv))
     = storage disabledFlagEnv.
Proof.
  split; [reflexivity|].
  exact (proj1 (failed_pass_runs_staleness_only parseFloat_decimal defaultConfig
                  (failedPoll 3600000) disabledFlagEnv eq_refl)).
Defined.

Lemma failed_pass_within_threshold pf cfg p e :
  fetchFailed p = true ->
  now_offline p - lastDataTimestamp (state e) <= systemOfflineThresholdMinutes cfg * 60 * 1000 ->
  runAllChecks pf cfg p e = (tt, e, []).
Proof.
  intros Hfail Hle. rewrite (runAllChecks_failed _ _ _ _ Hfail).
  destruct (systemOnline (state e)) eqn:Hon.
  - rewrite (checkSystemOffline_online _ _ _ Hon).
    replace (_ >? _) with false; [reflexivity|].
    symmetry. rewrite Z.gtb_ltb. apply Z.ltb_ge. exact Hle.
  - apply checkSystemOffline_offline. exact Hon.
Qed.

(** X2.  While the fetch keeps failing, the offline alert is sent on the
    first pass that comes strictly more than the threshold after the last
    successful fetch, with the whole minutes elapsed, and on no pass before
    or after it. *)
Theorem offline_alert_on_first_pass_beyond_threshold
    (parseFloat : string -> number) (cfg : Config) (e : Env)
    (before : list Poll) (p : Poll) (after : list Poll) :
  systemOnline (state e) = true ->
  Forall (fun q => fetchFailed q = true) (before ++ p :: after) ->
  Forall (fun q => now_offline q - lastDataTimestamp (state e)
                   <= systemOfflineThresholdMinutes cfg * 60 * 1000) before ->
  systemOfflineThresholdMinutes cfg * 60 * 1000 < now_offline p - lastDataTimestamp (state e) ->
  trace (map (runAllChecks parseFloat cfg) (before ++ p :: after)) e
  = map (fun _ => []) before
    ++ [SystemOfflineAlert ((now_offline p - lastDataTimestamp (state e)) / 60000)]
       :: map (fun _ => []) after.
Proof.
  intros Hon Hfail Hbefore Hp.
  apply Forall_app in Hfail as [Hfb Hfa]. apply Forall_cons in Hfa as [Hfp Hfa].
  induction before as [|q before IH].
  - cbn [app map trace]. rewrite (runAllChecks_failed _ _ _ _ Hfp).
    rewrite (checkSystemOffline_online _ _ _ Hon).
    replace (_ >? _) with true by (symmetry; apply Z.gtb_lt; exact Hp).
    f_equal. apply staleness_no_reminder; [reflexivity | exact Hfa].
  - apply Forall_cons in Hfb as [Hfq Hfb]. apply Forall_cons in Hbefore as [Hq Hbefore].
    cbn [app map trace]. rewrite (failed_pass_within_threshold _ _ _ _ Hfq Hq).
    f_equal. apply IH; assumption.
Qed.

Lemma offline_alert_on_first_pass_beyond_threshold_witness :
  trace (map (runAllChecks parseFloat_decimal defaultConfig)
           ([failedPoll 300000; failedPoll 600000] ++ failedPoll 900000 :: [failedPoll 1200000]))
    (freshEnv 0)
  = map (fun _ => []) [failedPoll 300000; failedPoll 600000]
    ++ [SystemOfflineAlert 15] :: map (fun _ => []) [failedPoll 1200000].
Proof.
  refine (offline_alert_on_first_pass_beyond_threshold parseFloat_decimal defaultConfig
            (freshEnv 0) [failedPoll 300000; failedPoll 600000] (failedPoll 900000)
            [failedPoll 1200000] eq_refl _ _ _).
  - repeat (apply List.Forall_cons; [reflexivity|]). apply List.Forall_nil.
  - repeat (apply List.Forall_cons; [vm_compute; discriminate|]). apply List.Forall_nil.
  - reflexivity.
Defined.

(** X3.  The export monitor at the edge.  After a check that saw the feed
    enabled, the next two checks that see it disabled both send the alert,
    however close they are: the second still finds "enabled" in
    [previousGridFeedStatus].  From then on the monitor is past the edge. *)
Theorem export_edge_alerts_on_two_checks (cfg : Config) (e : Env) (t0 t1 t2 : Z) :
  trace [checkGridFeed cfg t0 true; checkGridFeed cfg t1 false; checkGridFeed cfg t2 false] e
  = [[]; [GridFeedDisabledAlert]; [GridFeedDisabledAlert]]
  /\ feed_settled (Some t2)
       (exec [checkGridFeed cfg t0 true; checkGridFeed cfg t1 false;
              checkGridFeed cfg t2 false] e).
Proof.
  destruct e as [s st]. unfold checkGridFeed. step_monad.
  rewrite andb_false_r. cbn.
  destruct (previousGridFeedStatus s), (gridFeedingEnabled s); cbn; repeat split.
Qed.

Ltac case_bools :=
  repeat match goal with
         | |- context [if ?b then _ else _] => destruct b eqn:?; cbn -[elapsed_at_least Z.mul]
         end.

(** X4.  The reset check, the undervoltage check and the export check work
    on separate fields: any two of them leave the same environment and send
    the same alerts (in the order they ran) whichever runs first. *)
Theorem monitors_commute (cfg : Config) (e : Env)
    (t1 : Z) (p : string) (t2 : Z) (v : number) (t3 : Z) (b : bool) :
  (env_of ((checkSystemReset t1 p ;; checkLoadShedding cfg t2 v)%monitor e)
   = env_of ((checkLoadShedding cfg t2 v ;; checkSystemReset t1 p)%monitor e)
   /\ alerts_of ((checkSystemReset t1 p ;; checkLoadShedding cfg t2 v)%monitor e)
      = alerts_of (checkSystemReset t1 p e) ++ alerts_of (checkLoadShedding cfg t2 v e)
   /\ alerts_of ((checkLoadShedding cfg t2 v ;; checkSystemReset t1 p)%monitor e)
      = alerts_of (checkLoadShedding cfg t2 v e) ++ alerts_of (checkSystemReset t1 p e))
  /\ (env_of ((checkSystemReset t1 p ;; checkGridFeed cfg t3 b)%monitor e)
      = env_of ((checkGridFeed cfg t3 b ;; checkSystemReset t1 p)%monitor e)
      /\ alerts_of ((checkSystemReset t1 p ;; checkGridFeed cfg t3 b)%monitor e)
         = alerts_of (checkSystemReset t1 p e) ++ alerts_of (checkGridFeed cfg t3 b e)
      /\ alerts_of ((checkGridFeed cfg t3 b ;; checkSystemReset t1 p)%monitor e)
         = alerts_of (checkGridFeed cfg t3 b e) ++ alerts_of (checkSystemReset t1 p e))
  /\ (env_of ((checkLoadShedding cfg t2 v ;; checkGridFeed cfg t3 b)%monitor e)
      = env_of ((checkGridFeed cfg t3 b ;; checkLoadShedding cfg t2 v)%monitor e)
      /\ alerts_of ((checkLoadShedding cfg t2 v ;; checkGridFeed cfg t3 b)%monitor e)
         = alerts_of (checkLoadShedding cfg t2 v e) ++ alerts_of (checkGridFeed cfg t3 b e)
      /\ alerts_of ((checkGridFeed cfg t3 b ;; checkLoadShedding cfg t2 v)%monitor e)
         = alerts_of (checkGridFeed cfg t3 b e) ++ alerts_of (checkLoadShedding cfg t2 v e)).
Proof.
  destruct e as [[] st].
  split; [|split].
  - unfold checkSystemReset, checkLoadShedding. step_monad. case_bools; repeat split; first [reflexivity | congruence].
  - unfold checkSystemReset, checkGridFeed. step_monad. case_bools; repeat split; first [reflexivity | congruence].
  - unfold checkLoadShedding, checkGridFeed. step_monad. case_bools; repeat split; first [reflexivity | congruence].
Qed.

Lemma deviating_test (p : string) :
  negb (String.eqb p EXPECTED_OUTPUT_PRIORITY) && negb (String.eqb p "Unknown") = true
  <-> deviating p.
Proof.
  unfold deviating. rewrite andb_true_iff, !negb_true_iff, !String.eqb_neq. tauto.
Qed.

Lemma getCurrentSystemData_effect pf daily now e :
  getCurrentSystemData pf daily now e
  = (value_of (getCurrentSystemData pf daily now e),
     env_of (getCurrentSystemData pf daily now e), [])
  /\ reset_fields (state (env_of (getCurrentSystemData pf daily now e))) = reset_fields (state e)
  /\ storage (env_of (getCurrentSystemData pf daily now e)) = storage e.
Proof.
  unfold getCurrentSystemData. destruct daily as [rows|]; [|repeat split].
  destruct (last rows) as [latestRow|]; [|repeat split].
  destruct e as [[] st]. unfold updateDataTimestamp. step_monad.
  case_bools; repeat split.
Qed.

Lemma checkResetRoute_parts pf daily now_fetch now_reset e :
  let fetched := getCurrentSystemData pf daily now_fetch e in
  let priority := outputPriority (value_of fetched) in
  let detected :=
    negb (String.eqb priority EXPECTED_OUTPUT_PRIORITY) && negb (String.eqb priority "Unknown") in
  let checked := when detected (checkSystemReset now_reset priority) (env_of fetched) in
  reset_detected (value_of (checkResetRoute pf daily now_fetch now_reset e)) = detected
  /\ env_of (checkResetRoute pf daily now_fetch now_reset e) = env_of checked
  /\ alerts_of (checkResetRoute pf daily now_fetch now_reset e) = alerts_of checked.
Proof.
  intros fetched priority detected checked.
  destruct (getCurrentSystemData_effect pf daily now_fetch e) as (Hget & _).
  unfold checkResetRoute, bind, ret. fold fetched in Hget |- *. rewrite Hget.
  fold priority. fold detected. fold checked.
  destruct checked as [[u e2] out]. cbn. rewrite app_nil_r. repeat split.
Qed.

Lemma checkSystemReset_keeps_storage now p e :
  storage (env_of (checkSystemReset now p e)) = storage e.
Proof.
  destruct e as [[] st]. unfold checkSystemReset. step_monad. case_bools; reflexivity.
Qed.

(** X5.  The reset check of the API reports a reset exactly when the latest
    priority is resolved and differs from the expected one, and only then
    runs the reset monitor (whose alerts are all it sends).  Otherwise it
    sends nothing and leaves the reset monitor's fields as they are: unlike a
    monitoring pass, it does not clear a detected reset when the priority is
    back to the expected one.  It never writes the settings storage. *)
Theorem check_reset_route_runs_monitor_on_deviation
    (parseFloat : string -> number) (daily : option (list Row))
    (now_fetch now_reset : Z) (e : Env) :
  let fetched := getCurrentSystemData parseFloat daily now_fetch e in
  let r := checkResetRoute parseFloat daily now_fetch now_reset e in
  (reset_detected (value_of r) = true <-> deviating (outputPriority (value_of fetched)))
  /\ (reset_detected (value_of r) = true ->
      alerts_of r
      = alerts_of (checkSystemReset now_reset (outputPriority (value_of fetched))
                     (env_of fetched)))
  /\ (reset_detected (value_of r) = false ->
      alerts_of r = [] /\ reset_fields (state (env_of r)) = reset_fields (state e))
  /\ storage (env_of r) = storage e.
Proof.
  intros fetched r.
  destruct (getCurrentSystemData_effect parseFloat daily now_fetch e) as (_ & Hrf & Hst).
  destruct (checkResetRoute_parts parseFloat daily now_fetch now_reset e) as (Hd & He & Ha).
  fold fetched in Hrf, Hst, Hd, He, Ha. fold r in Hd, He, Ha.
  rewrite Hd, He, Ha. clear Hd He Ha.
  destruct (negb (String.eqb (outputPriority (value_of fetched)) EXPECTED_OUTPUT_PRIORITY)
            && negb (String.eqb (outputPriority (value_of fetched)) "Unknown")) eqn:Hdet;
    cbn [when].
  - split; [|split; [|split]].
    + split; [intros _; apply deviating_test; exact Hdet | reflexivity].
    + reflexivity.
    + discriminate.
    + rewrite checkSystemReset_keeps_storage. exact Hst.
  - split; [|split; [|split]].
    + split; [discriminate|]. intros Hdev. apply deviating_test in Hdev. congruence.
    + discriminate.
    + intros _. split; [reflexivity | exact Hrf].
    + exact Hst.
Qed.

Lemma check_reset_route_runs_monitor_on_deviation_witness :
  let e := env_of (checkSystemReset 0 utilityFirst (freshEnv 0)) in
  let r := checkResetRoute parseFloat_decimal
             (Some [ {| field := Some (replicate 38 "" ++ [EXPECTED_OUTPUT_PRIORITY]) |} ])
             600000 600000 e in
  reset_detected (value_of r) = false
  /\ alerts_of r = []
  /\ systemResetDetected (state (env_of r)) = true.
Proof.
  intros e r.
  pose proof (check_reset_route_runs_monitor_on_deviation parseFloat_decimal
                (Some [ {| field := Some (replicate 38 "" ++ [EXPECTED_OUTPUT_PRIORITY]) |} ])
                600000 600000 e) as (_ & _ & H & _).
  assert (reset_detected (value_of r) = false) as Hno by reflexivity.
  destruct (H Hno) as [Hout Hrf].
  split; [exact Hno|]. split; [exact Hout|].
  change (fst (fst (reset_fields (state (env_of r)))) = true).
  fold r in Hrf. rewrite Hrf. reflexivity.
Defined.

(** Only the latest row of the day's data reaches the monitors: the
    rows before it change nothing of what [getCurrentSystemData] returns or
    does. *)
Theorem getCurrentSystemData_reads_latest_row
    (parseFloat : string -> number) (rows : list Row) (latestRow : Row) (now : Z) (e : Env) :
  getCurrentSystemData parseFloat (Some (rows ++ [latestRow])) now e
  = getCurrentSystemData parseFloat (Some [latestRow]) now e.
Proof. unfold getCurrentSystemData. rewrite last_snoc. reflexivity. Qed.

(** * Further properties of the daily statistics *)

Lemma actual_cons d r rows :
  actualDataPoints d (r :: rows)
  = (if retained d r then 1 else 0) + actualDataPoints d rows.
Proof.
  unfold actualDataPoints. rewrite (retained_counted d r).
  destruct (counted d r) eqn:Hc.
  - rewrite filter_cons_True by exact Hc. cbn [length]. lia.
  - rewrite filter_cons_False by congruence. lia.
Qed.

Lemma actual_of_retained d rows :
  actualDataPoints d (retained_rows d rows) = actualDataPoints d rows.
Proof.
  induction rows as [|r rows IH]; [reflexivity|].
  unfold retained_rows in *. rewrite (actual_cons d r rows).
  destruct (retained d r) eqn:Hr.
  - rewrite filter_cons_True by exact Hr. rewrite actual_cons, Hr, IH. reflexivity.
  - rewrite filter_cons_False by congruence. rewrite IH. lia.
Qed.

Lemma getDailyStats_of_retained_rows
    (parseFloat : string -> number) (rows : list Row) (dateStr generatedAt : string) :
  getDailyStats parseFloat (Some rows) dateStr generatedAt
  = getDailyStats parseFloat (Some (retained_rows dateStr rows)) dateStr generatedAt.
Proof.
  unfold getDailyStats, productionKwh, loadKwh, gridContributionKwh, missingDataHours,
    missingDataPoints, totals.
  rewrite (actual_of_retained dateStr rows), <- (totals_from_retained parseFloat dateStr rows).
  reflexivity.
Qed.

(** X6.  The summary of a day depends on the retained rows alone: rows
    stamped on another day, rows of fewer than 22 fields and rows without
    fields can be dropped from the answer of the API without changing it. *)
Theorem summary_depends_on_retained_rows
    (parseFloat : string -> number) (rows : list Row) (dateStr generatedAt : string) :
  getDailyStats parseFloat (Some rows) dateStr generatedAt
  = getDailyStats parseFloat (Some (retained_rows dateStr rows)) dateStr generatedAt.
Proof.
  unfold getDailyStats, productionKwh, loadKwh, gridContributionKwh, missingDataHours,
    missingDataPoints, totals.
  rewrite (actual_of_retained dateStr rows), <- (totals_from_retained parseFloat dateStr rows).
  reflexivity.
Qed.

Lemma retained_rows_none d rows :
  Forall (fun r => retained d r = false) rows -> retained_rows d rows = [].
Proof.
  induction 1 as [|r rows Hr _ IH]; [reflexivity|].
  unfold retained_rows in *. rewrite filter_cons_False by congruence. exact IH.
Qed.

(** X7.  When no row is retained (no data, or only rows of other days), the
    summary is not an error but the all-zero day: no production, no load, no
    grid contribution, no time in battery or standby mode, and 24 hours of
    missing data. *)
Theorem summary_of_a_day_without_samples
    (parseFloat : string -> number) (rows : list Row) (dateStr generatedAt : string) :
  Forall (fun r => retained dateStr r = false) rows ->
  exists s : DailySummaryData,
    getDailyStats parseFloat (Some rows) dateStr generatedAt = Some s
    /\ date s = dateStr
    /\ num_eq (production_kwh s) (Fin 0) = true
    /\ num_eq (load_kwh s) (Fin 0) = true
    /\ num_eq (grid_contribution_kwh s) (Fin 0) = true
    /\ load_shedding_hours s = "0 hr 0 min"
    /\ standby_hours s = "0 hr 0 min"
    /\ missing_data_hours s = "24 hr 0 min"
    /\ system_off_hours s = "24 hr 0 min".
Proof.
  intros Hnone. rewrite getDailyStats_of_retained_rows, (retained_rows_none _ _ Hnone).
  eexists. split; [reflexivity|]. vm_compute. repeat split.
Qed.

Lemma summary_of_a_day_without_samples_witness :
  Forall (fun r => retained sampleDay r = false)
    [sampleRow "2025-10-07 23:55:00" "1200" "900"; {| field := None |}]
  /\ missing_data_hours
       <$> getDailyStats parseFloat_decimal
             (Some [sampleRow "2025-10-07 23:55:00" "1200" "900"; {| field := None |}])
             sampleDay ""
     = Some "24 hr 0 min".
Proof.
  assert (Forall (fun r => retained sampleDay r = false)
            [sampleRow "2025-10-07 23:55:00" "1200" "900"; {| field := None |}]) as Hnone
    by (repeat (apply List.Forall_cons; [reflexivity|]); apply List.Forall_nil).
  split; [exact Hnone|].
  destruct (summary_of_a_day_without_samples parseFloat_decimal _ sampleDay "" Hnone)
    as (s & -> & _ & _ & _ & _ & _ & _ & Hm & _).
  cbn. rewrite Hm. reflexivity.
Defined.

Local Open Scope Q_scope.

Lemma num_same_refl a : num_same a a.
Proof. destruct a; cbn; [exact I | reflexivity]. Qed.


Lemma energy_from_NaN (power : Row -> number) (samples : list Row) :
  foldl (fun acc rec => num_add acc (num_mul (power rec) (Fin intervalHours))) NaN samples
  = NaN.
Proof. induction samples as [|r samples IH]; [reflexivity|]. cbn [foldl]. exact IH. Qed.

Lemma energy_poisoned (power : Row -> number) (samples : list Row) (r : Row) :
  In r samples -> power r = NaN -> energyWh_spec power samples = NaN.
Proof.
  unfold energyWh_spec. generalize (Fin 0) as acc.
  induction samples as [|r' samples IH]; intros acc [].
  - subst r'. intros Hnan. cbn [foldl]. rewrite Hnan.
    replace (num_add acc (num_mul NaN (Fin intervalHours))) with NaN
      by (destruct acc; reflexivity).
    apply energy_from_NaN.
  - intros Hnan. cbn [foldl]. apply IH; assumption.
Qed.

(** X9.  One retained row whose PV field is not empty and does not parse
    to a number makes the production of the day [NaN], and the grid
    contribution with it. *)
Theorem unparsable_power_poisons_production
    (parseFloat : string -> number) (dateStr : string) (rows : list Row) (r : Row) :
  In r rows -> retained dateStr r = true -> pvPower_of_row parseFloat r = NaN ->
  productionKwh parseFloat dateStr rows = NaN
  /\ gridContributionKwh parseFloat dateStr rows = NaN.
Proof.
  intros Hin Hr Hnan.
  destruct (totals_are_running_sums parseFloat dateStr rows) as [Hp _].
  rewrite (energy_poisoned (pvPower_of_row parseFloat) (retained_rows dateStr rows) r)
    in Hp.
  - unfold productionKwh, gridContributionKwh. rewrite Hp. split; reflexivity.
  - unfold retained_rows.
    apply list_elem_of_In, list_elem_of_filter. split; [exact Hr|].
    apply list_elem_of_In. exact Hin.
  - exact Hnan.
Qed.

Lemma unparsable_power_poisons_production_witness :
  productionKwh parseFloat_decimal sampleDay
    [sampleRow "2025-10-08 12:00:00" "1000" "930"; sampleRow "2025-10-08 12:05:00" "n/a" "930"]
  = NaN.
Proof.
  refine (proj1 (unparsable_power_poisons_production parseFloat_decimal sampleDay _
                   (sampleRow "2025-10-08 12:05:00" "n/a" "930") _ _ _)).
  - right. left. reflexivity.
  - reflexivity.
  - reflexivity.
Defined.

Local Close Scope Q_scope.

Local Open Scope Q_scope.






(** Two rows on battery and one in standby. *)
Example mode_hours_of_three_rows :
  let rows := [ {| field := Some (["0"; "2025-10-08 12:00:00"] ++ replicate 45 "0"
                                    ++ ["Battery Mode"]) |};
                {| field := Some (["0"; "2025-10-08 12:05:00"] ++ replicate 45 "0"
                                    ++ ["Standby Mode"]) |};
                {| field := Some (["0"; "2025-10-09 00:00:00"] ++ replicate 45 "0"
                                    ++ ["Battery Mode"]) |};
                {| field := Some (["0"; "2025-10-08 12:10:00"] ++ replicate 45 "0"
                                    ++ ["Battery Mode"]) |} ] in
  rows_in_mode "Battery Mode" (retained_rows sampleDay rows) = 2%nat
  /\ load_shedding_hours <$> getDailyStats parseFloat_decimal (Some rows) sampleDay ""
     = Some "0 hr 10 min"
  /\ standby_hours <$> getDailyStats parseFloat_decimal (Some rows) sampleDay ""
     = Some "0 hr 5 min".
Proof. vm_compute. repeat split. Qed.

Lemma Qfloor_fraction (n : Z) (d : positive) : Qfloor (inject_Z n / inject_Z (Zpos d)) = (n / Zpos d)%Z.
Proof.
  assert (inject_Z n / inject_Z (Zpos d) == n # d) as E.
  { unfold Qdiv, Qinv, Qmult, Qeq, inject_Z. cbn. lia. }
  rewrite (Qfloor_comp _ _ E). reflexivity.
Qed.

Lemma formatHours_of_minutes (m : Z) :
  (0 <= m)%Z ->
  formatHours (inject_Z m / 60)
  = pretty (m / 60)%Z +:+ " hr " +:+ pretty (m mod 60)%Z +:+ " min".
Proof.
  intros Hm.
  assert (Qfloor (inject_Z m / 60) = (m / 60)%Z) as Hfloor
    by (change 60 with (inject_Z 60); apply Qfloor_fraction).
  unfold formatHours. cbv zeta. rewrite Hfloor.
  replace (Qround_half_up ((inject_Z m / 60 - inject_Z (m / 60)) * 60))
    with (m mod 60)%Z; [reflexivity|].
  rewrite <- (Qround_half_up_Z (m mod 60)). unfold Qround_half_up. apply Qfloor_comp.
  rewrite (Z.mod_eq m 60) by lia. unfold Z.sub.
  rewrite inject_Z_plus, inject_Z_opp, inject_Z_mult.
  change (inject_Z 60) with 60. field.
Qed.

(** X11.  The missing-data duration of a summary is written exactly: five
    minutes for each missing sample, as whole hours and a number of minutes
    below 60. *)
Theorem missing_data_hours_is_five_minutes_per_sample
    (parseFloat : string -> number) (rows : list Row) (dateStr generatedAt : string) :
  let minutes := (5 * missingDataPoints dateStr rows)%Z in
  missing_data_hours <$> getDailyStats parseFloat (Some rows) dateStr generatedAt
  = Some (pretty (minutes / 60)%Z +:+ " hr " +:+ pretty (minutes mod 60)%Z +:+ " min")
  /\ (0 <= minutes mod 60 < 60)%Z.
Proof.
  intros minutes. split; [|apply Z.mod_pos_bound; lia].
  cbn. f_equal. unfold missingDataHours.
  rewrite <- (formatHours_of_minutes minutes) by (unfold minutes, missingDataPoints; lia).
  f_equal. unfold minutes. rewrite inject_Z_mult. change (inject_Z 5) with 5.
  generalize (inject_Z (missingDataPoints dateStr rows)). intros q.
  unfold Qdiv, Qmult, Qinv. destruct q as [a b]. cbn. f_equal; lia.
Qed.

Local Close Scope Q_scope.

(** * Retrying and aggregating over a range of days *)

Lemma backoff_delays_from (d : Z) (attempt n : nat) :
  map (fun a => d * 2 ^ Z.of_nat a) (seq attempt (S n))
  = d * 2 ^ Z.of_nat attempt :: map (fun a => d * 2 ^ Z.of_nat a) (seq (S attempt) n).
Proof. reflexivity. Qed.

Lemma retry_from_ends_at {T : Type} (fn : nat -> Outcome T) (maxRetries : nat) (d : Z)
    (k remaining attempt : nat) (lastError : option JsError) :
  (attempt + remaining = maxRetries)%nat ->
  (k < remaining)%nat ->
  (forall i, (i < k)%nat -> retried (fn (attempt + i)%nat)) ->
  decisive (fn (attempt + k)%nat) \/ (attempt + k = maxRetries - 1)%nat ->
  retry_from fn maxRetries d remaining attempt lastError
  = {| settled := settle (fn (attempt + k)%nat);
       waits := map (fun a => d * 2 ^ Z.of_nat a) (seq attempt k);
       calls := S k |}.
Proof.
  revert remaining attempt lastError.
  induction k as [|k IH]; intros remaining attempt lastError Hsum Hlt Hretried Hend.
  - destruct remaining as [|remaining]; [lia|]. rewrite Nat.add_0_r in *.
    cbn [retry_from seq map]. destruct (fn attempt) as [v|error]; [reflexivity|].
    cbn [settle]. destruct (noRetry error) eqn:Hno; [reflexivity|].
    destruct Hend as [Hdec|Hlast]; [cbn in Hdec; congruence|].
    rewrite <- Hlast, Nat.eqb_refl. reflexivity.
  - destruct remaining as [|remaining]; [lia|].
    destruct (Hretried 0%nat ltac:(lia)) as (error & Hfn & Hno).
    rewrite Nat.add_0_r in Hfn. cbn [retry_from]. rewrite Hfn, Hno.
    replace (attempt =? maxRetries - 1)%nat with false
      by (symmetry; apply Nat.eqb_neq; lia).
    rewrite (IH remaining (S attempt) (Some error)).
    + rewrite backoff_delays_from. cbn [settled waits calls].
      replace (S attempt + k)%nat with (attempt + S k)%nat by lia. reflexivity.
    + lia.
    + lia.
    + intros i Hi. replace (S attempt + i)%nat with (attempt + S i)%nat by lia.
      apply Hretried. lia.
    + replace (S attempt + k)%nat with (attempt + S k)%nat by lia. exact Hend.
Qed.

(** X12.  A run of [retryWithBackoff] ends at the first attempt that returns
    a value, fails with an error that is not retried ("No data available",
    "ERR_NO_RECORD"), or is the last one allowed.  It ends as that attempt
    does, having called [fn] once per attempt and waited [initialDelay],
    twice that, four times that, ... between the attempts. *)
Theorem retry_ends_at_first_decisive_attempt {T : Type}
    (fn : nat -> Outcome T) (maxRetries : nat) (initialDelay : Z) (k : nat) :
  (k < maxRetries)%nat ->
  (forall i, (i < k)%nat -> retried (fn i)) ->
  decisive (fn k) \/ k = (maxRetries - 1)%nat ->
  retryWithBackoff fn maxRetries initialDelay
  = {| settled := settle (fn k); waits := backoff_delays initialDelay k; calls := S k |}.
Proof.
  intros Hk Hretried Hend.
  apply (retry_from_ends_at fn maxRetries initialDelay k maxRetries 0 None);
    [reflexivity | exact Hk | exact Hretried | exact Hend].
Qed.

Lemma backoff_delays_sum (d : Z) (n : nat) :
  foldr Z.add 0 (backoff_delays d n) = d * (2 ^ Z.of_nat n - 1).
Proof.
  unfold backoff_delays. induction n as [|n IH]; [cbn; lia|].
  rewrite seq_S, map_app, foldr_app. cbn [map foldr Nat.add].
  assert (forall (l : list Z) (a : Z), foldr Z.add a l = foldr Z.add 0 l + a) as Hshift.
  { induction l as [|x l IHl]; intros a; cbn; [lia|]. rewrite IHl. lia. }
  rewrite Hshift, IH. rewrite Nat2Z.inj_succ, Z.pow_succ_r by lia. lia.
Qed.

Lemma retry_from_bounds {T : Type} (fn : nat -> Outcome T) (maxRetries : nat) (d : Z)
    (remaining attempt : nat) (lastError : option JsError) :
  (attempt + remaining = maxRetries)%nat ->
  let r := retry_from fn maxRetries d remaining attempt lastError in
  (calls r <= remaining)%nat
  /\ waits r = map (fun a => d * 2 ^ Z.of_nat a) (seq attempt (calls r - 1))
  /\ (calls r = 0%nat <-> remaining = 0%nat).
Proof.
  revert attempt lastError. induction remaining as [|remaining IH];
    intros attempt lastError Hsum; cbn [retry_from].
  - cbn. repeat split; lia.
  - destruct (fn attempt) as [v|error]; [cbn; repeat split; lia|].
    destruct (noRetry error); [cbn; repeat split; lia|].
    destruct (Nat.eqb_spec attempt (maxRetries - 1)) as [Hlast|Hnot];
      [cbn; repeat split; lia|].
    destruct (IH (S attempt) (Some error) ltac:(lia)) as (Hc & Hw & Hz).
    cbn [calls waits]. split; [lia|]. split; [|split; lia].
    destruct (calls (retry_from fn maxRetries d remaining (S attempt) (Some error)))
      as [|c] eqn:Hcalls.
    + apply proj1 in Hz. specialize (Hz eq_refl). lia.
    + cbn [Nat.sub] in *. rewrite Nat.sub_0_r in *. rewrite backoff_delays_from, Hw.
      reflexivity.
Qed.

(** X13.  Whatever [fn] does, [retryWithBackoff] calls it at most
    [maxRetries] times and waits between two calls only: the delays are
    [initialDelay], twice that, ... and add up to at most
    [initialDelay * (2 ^ (maxRetries - 1) - 1)].  With [maxRetries = 0] it
    calls nothing and throws [undefined]. *)
Theorem retry_is_bounded {T : Type}
    (fn : nat -> Outcome T) (maxRetries : nat) (initialDelay : Z) :
  let r := retryWithBackoff fn maxRetries initialDelay in
  (calls r <= maxRetries)%nat
  /\ waits r = backoff_delays initialDelay (calls r - 1)
  /\ (0 <= initialDelay ->
      foldr Z.add 0 (waits r) <= initialDelay * (2 ^ Z.of_nat (maxRetries - 1) - 1))
  /\ (maxRetries = 0%nat -> settled r = Threw None /\ calls r = 0%nat).
Proof.
  intros r. unfold r, retryWithBackoff.
  destruct (retry_from_bounds fn maxRetries initialDelay maxRetries 0 None eq_refl)
    as (Hc & Hw & Hz).
  split; [exact Hc|]. split; [exact Hw|]. split.
  - intros Hd.
    pose proof (backoff_delays_sum initialDelay
                  (calls (retry_from fn maxRetries initialDelay maxRetries 0 None) - 1))
      as Hsum.
    unfold backoff_delays in Hsum. rewrite Hw, Hsum.
    apply Z.mul_le_mono_nonneg_l; [exact Hd|].
    apply Z.sub_le_mono_r. apply Z.pow_le_mono_r; lia.
  - intros ->. split; reflexivity.
Qed.

Lemma retry_ends_at_first_decisive_attempt_witness :
  retryWithBackoff flaky 3 1000
  = {| settled := Returned "rows"; waits := [1000; 2000]; calls := 3 |}.
Proof.
  refine (retry_ends_at_first_decisive_attempt flaky 3 1000 2 _ _ _).
  - lia.
  - intros i Hi. destruct i as [|[|i]]; [| |lia]; eexists; split; reflexivity.
  - left. exact I.
Defined.

Lemma retry_is_bounded_witness :
  0 <= 1000
  /\ foldr Z.add 0 (waits (retryWithBackoff flaky 3 1000)) <= 1000 * (2 ^ Z.of_nat (3 - 1) - 1).
Proof.
  assert (0 <= 1000) as Hd by lia.
  split; [exact Hd|].
  exact (proj1 (proj2 (proj2 (retry_is_bounded flaky 3 1000))) Hd).
Defined.

Local Open Scope Q_scope.

Lemma prefix_of_empty (d : string) : d <> "" -> String.prefix d "" = false.
Proof. destruct d; [congruence | reflexivity]. Qed.

Lemma retained_cases (d : string) (r : Row) :
  d <> "" ->
  retained d r
  = if (length (fields_of r) <? 22)%nat then false
    else match fields_of r !! 1%nat with
         | Some timestamp => String.prefix d timestamp
         | None => false
         end.
Proof.
  intros Hd. unfold retained. destruct (length (fields_of r) <? 22)%nat; [reflexivity|].
  destruct (fields_of r !! 1%nat) as [[|c ts]|]; try reflexivity.
  cbn [truthy andb]. symmetry. apply prefix_of_empty. exact Hd.
Qed.

Lemma rangeAccumulate_cases pf d acc r :
  d <> "" ->
  rangeAccumulate pf d acc r
  = if retained d r then
      {| pvWh := num_add (pvWh acc)
                   (num_mul (or_zero (parseFloat_at pf (fields_of r) 11)) (Fin intervalHours));
         loadWh := num_add (loadWh acc)
                     (num_mul (or_zero (parseFloat_at pf (fields_of r) 21)) (Fin intervalHours));
         hasValidData := true |}
    else acc.
Proof.
  intros Hd. rewrite (retained_cases d r Hd). unfold rangeAccumulate.
  destruct (length (fields_of r) <? 22)%nat; [reflexivity|].
  destruct (fields_of r !! 1%nat) as [ts|]; reflexivity.
Qed.

Lemma or_zero_finite (x : number) : exists q, or_zero x = Fin q.
Proof. destruct x as [|q]; cbn; [|destruct (Qeq_bool q 0)]; eexists; reflexivity. Qed.

Lemma or_zero_same (x : number) : x <> NaN -> num_same (or_zero x) x.
Proof.
  destruct x as [|q]; [congruence|]. intros _. cbn.
  destruct (Qeq_bool q 0) eqn:E; cbn; [|reflexivity].
  apply Qeq_bool_iff in E. symmetry. exact E.
Qed.

Lemma retained_has_fields (d : string) (r : Row) (i : nat) :
  retained d r = true -> (i < 22)%nat -> is_Some (fields_of r !! i).
Proof.
  unfold retained. destruct (Nat.ltb_spec (length (fields_of r)) 22) as [|Hlen];
    [discriminate|].
  intros _ Hi. apply lookup_lt_is_Some. lia.
Qed.

Lemma or_zero_reads_power pf (d : string) (r : Row) (i : nat) :
  pf "" = NaN -> retained d r = true -> (i < 22)%nat ->
  field_or (fields_of r) i pf (Fin 0) <> NaN ->
  num_same (or_zero (parseFloat_at pf (fields_of r) i)) (field_or (fields_of r) i pf (Fin 0)).
Proof.
  intros Hempty Hr Hi. destruct (retained_has_fields d r i Hr Hi) as [s Hs].
  unfold parseFloat_at, field_or. rewrite Hs. destruct s as [|c s]; cbn [truthy].
  - intros _. rewrite Hempty. cbn. reflexivity.
  - apply or_zero_same.
Qed.

Lemma num_add_mul_same (a a' p p' : number) (i : Q) :
  num_same a a' -> num_same p p' ->
  num_same (num_add a (num_mul p (Fin i))) (num_add a' (num_mul p' (Fin i))).
Proof.
  destruct a, a', p, p'; cbn; try tauto. intros H1 H2. rewrite H1, H2. reflexivity.
Qed.

Lemma round_kwh_same (a b : number) :
  num_same a b -> round_kwh (num_div a (Fin 1000)) = round_kwh (num_div b (Fin 1000)).
Proof.
  destruct a as [|x], b as [|y]; cbn [num_same]; try tauto. intros H.
  cbn [num_div num_lift2]. rewrite !round_kwh_Fin. do 3 f_equal.
  unfold Qround_half_up. apply Qfloor_comp. rewrite H. reflexivity.
Qed.

Lemma range_totals_agree pf (d : string) (rows : list Row) (acc : RangeTotals) (acc' : Totals) :
  d <> "" -> pf "" = NaN ->
  Forall (fun r => pvPower_of_row pf r <> NaN /\ loadPower_of_row pf r <> NaN)
    (retained_rows d rows) ->
  num_same (pvWh acc) (totalProductionWh acc') ->
  num_same (loadWh acc) (totalLoadWh acc') ->
  num_same (pvWh (foldl (rangeAccumulate pf d) acc rows))
           (totalProductionWh (foldl (accumulate pf d) acc' rows))
  /\ num_same (loadWh (foldl (rangeAccumulate pf d) acc rows))
              (totalLoadWh (foldl (accumulate pf d) acc' rows))
  /\ hasValidData (foldl (rangeAccumulate pf d) acc rows)
     = hasValidData acc || (0 <? actualDataPoints d rows)%Z.
Proof.
  intros Hd Hempty. revert acc acc'.
  induction rows as [|r rows IH]; intros acc acc' Hfin Hp Hl.
  - cbn [foldl]. rewrite orb_false_r. auto.
  - cbn [foldl]. rewrite (rangeAccumulate_cases pf d acc r Hd), actual_cons.
    unfold retained_rows in Hfin. destruct (retained d r) eqn:Hr.
    + rewrite filter_cons_True in Hfin by exact Hr.
      apply Forall_cons in Hfin as [[Hpv Hload] Hfin].
      destruct (accumulate_retained pf d acc' r Hr) as [Ep El].
      destruct (IH {| pvWh := num_add (pvWh acc)
                               (num_mul (or_zero (parseFloat_at pf (fields_of r) 11))
                                  (Fin intervalHours));
                      loadWh := num_add (loadWh acc)
                                  (num_mul (or_zero (parseFloat_at pf (fields_of r) 21))
                                     (Fin intervalHours));
                      hasValidData := true |} (accumulate pf d acc' r) Hfin)
        as (IHp & IHl & IHv).
      * cbn [pvWh]. rewrite Ep. apply num_add_mul_same; [exact Hp|].
        apply (or_zero_reads_power pf d r 11 Hempty Hr); [lia | exact Hpv].
      * cbn [loadWh]. rewrite El. apply num_add_mul_same; [exact Hl|].
        apply (or_zero_reads_power pf d r 21 Hempty Hr); [lia | exact Hload].
      * split; [exact IHp|]. split; [exact IHl|]. rewrite IHv. cbn [hasValidData orb].
        replace (0 <? 1 + actualDataPoints d rows)%Z with true
          by (symmetry; apply Z.ltb_lt; unfold actualDataPoints; lia).
        rewrite orb_true_r. reflexivity.
    + rewrite filter_cons_False in Hfin by congruence.
      rewrite (accumulate_skipped _ _ _ _ Hr). rewrite Z.add_0_l. apply IH; assumption.
Qed.

(** X14.  For a date that is not the empty string, and when every power
    field of the retained rows parses to a number, the range statistics and
    the daily summary agree: a day with a retained row gets the production
    and the load [getDailyStats] computes, to the last digit.  A day with no
    retained row is [null] in the range and zero in the summary. *)
Theorem range_day_agrees_with_daily_summary
    (parseFloat : string -> number) (dateStr : string) (rows : list Row) :
  dateStr <> "" ->
  parseFloat "" = NaN ->
  Forall (fun r => pvPower_of_row parseFloat r <> NaN /\ loadPower_of_row parseFloat r <> NaN)
    (retained_rows dateStr rows) ->
  rangeDay parseFloat dateStr (inl rows)
  = if (0 <? actualDataPoints dateStr rows)%Z then
      {| rd_date := dateStr;
         rd_production_kwh := Some (productionKwh parseFloat dateStr rows);
         rd_load_kwh := Some (loadKwh parseFloat dateStr rows);
         rd_error := None |}
    else noRangeData dateStr.
Proof.
  intros Hd Hempty Hfin.
  destruct (range_totals_agree parseFloat dateStr rows
              {| pvWh := Fin 0; loadWh := Fin 0; hasValidData := false |}
              {| totalProductionWh := Fin 0; totalLoadWh := Fin 0;
                 batteryModeHours := 0; standbyModeHours := 0 |} Hd Hempty Hfin
              (num_same_refl _) (num_same_refl _)) as (Hp & Hl & Hv).
  cbn [hasValidData orb] in Hv. fold (rangeTotals parseFloat dateStr rows) in Hp, Hl, Hv.
  fold (totals parseFloat dateStr rows) in Hp, Hl.
  destruct rows as [|r rows]; [reflexivity|].
  unfold rangeDay. rewrite Hv. destruct (0 <? actualDataPoints dateStr (r :: rows))%Z;
    [|reflexivity].
  cbn [negb]. unfold productionKwh, loadKwh.
  rewrite (round_kwh_same _ _ Hp), (round_kwh_same _ _ Hl). reflexivity.
Qed.

Lemma range_day_agrees_with_daily_summary_witness :
  rd_production_kwh (rangeDay parseFloat_decimal sampleDay (inl unevenRows))
  = Some (productionKwh parseFloat_decimal sampleDay unevenRows).
Proof.
  assert (sampleDay <> "") as Hd by discriminate.
  assert (Forall (fun r => pvPower_of_row parseFloat_decimal r <> NaN
                           /\ loadPower_of_row parseFloat_decimal r <> NaN)
            (retained_rows sampleDay unevenRows)) as Hfin.
  { apply List.Forall_cons; [split; vm_compute; discriminate | apply List.Forall_nil]. }
  rewrite (range_day_agrees_with_daily_summary parseFloat_decimal sampleDay unevenRows
             Hd eq_refl Hfin).
  reflexivity.
Defined.

Lemma range_totals_finite pf d rows acc :
  (exists p, pvWh acc = Fin p) -> (exists l, loadWh acc = Fin l) ->
  (exists p, pvWh (foldl (rangeAccumulate pf d) acc rows) = Fin p)
  /\ (exists l, loadWh (foldl (rangeAccumulate pf d) acc rows) = Fin l).
Proof.
  revert acc. induction rows as [|r rows IH]; intros acc Hp Hl; [split; assumption|].
  cbn [foldl]. apply IH; unfold rangeAccumulate;
    destruct (length (fields_of r) <? 22)%nat; try assumption;
    destruct (fields_of r !! 1%nat) as [ts|]; try assumption;
    destruct (String.prefix d ts); try assumption; cbn [pvWh loadWh].
  - destruct Hp as [p ->]. destruct (or_zero_finite (parseFloat_at pf (fields_of r) 11)) as [q ->].
    eexists. reflexivity.
  - destruct Hl as [l ->]. destruct (or_zero_finite (parseFloat_at pf (fields_of r) 21)) as [q ->].
    eexists. reflexivity.
Qed.

(** X15.  The range statistics never report [NaN]: a power field that does
    not parse counts as zero there, so the production and the load of a day
    are [null] or numbers, whatever the rows hold.  A day whose fetch threw
    is reported with [null] values and the message of the error. *)
Theorem range_day_is_null_or_a_number
    (parseFloat : string -> number) (dateStr : string) (fetched : list Row + JsError) :
  rd_production_kwh (rangeDay parseFloat dateStr fetched) <> Some NaN
  /\ rd_load_kwh (rangeDay parseFloat dateStr fetched) <> Some NaN
  /\ (forall error, fetched = inr error ->
      rangeDay parseFloat dateStr fetched
      = {| rd_date := dateStr; rd_production_kwh := None; rd_load_kwh := None;
           rd_error := message error |}).
Proof.
  split; [|split].
  3: { intros error ->. reflexivity. }
  all: destruct fetched as [[|r rows]|error]; cbn [rangeDay noRangeData rd_production_kwh rd_load_kwh];
    try discriminate;
    destruct (hasValidData (rangeTotals parseFloat dateStr (r :: rows)));
    cbn [negb noRangeData rd_production_kwh rd_load_kwh]; try discriminate;
    destruct (range_totals_finite parseFloat dateStr (r :: rows)
                {| pvWh := Fin 0; loadWh := Fin 0; hasValidData := false |}
                (ex_intro _ 0 eq_refl) (ex_intro _ 0 eq_refl)) as [[p Hp] [l Hl]];
    fold (rangeTotals parseFloat dateStr (r :: rows)) in Hp, Hl;
    rewrite ?Hp, ?Hl; discriminate.
Qed.

Local Close Scope Q_scope.

(** * The health report *)

Lemma health_checks_score (v f p : number) (mode : string) :
  let '(ws, es, score) :=
    checkLoad p (checkSystemMode mode (checkGridFrequency f (checkGridVoltage v ([], [], 100)))) in
  15 <= score <= 100
  /\ (score = 100 <-> ws = [] /\ es = [])
  /\ (es <> [] <-> mode = "Fault Mode")
  /\ (es = [] \/ es = [FaultModeError])
  /\ (In (LowGridVoltage v) ws <-> isVoltageBelow defaultConfig v = true)
  /\ (length ws <= 4)%nat.
Proof.
  unfold checkLoad, checkSystemMode, checkGridFrequency, checkGridVoltage, isVoltageBelow.
  change (loadSheddingVoltageThreshold defaultConfig) with 180%Q.
  destruct (String.eqb_spec mode "Fault Mode") as [Hf|Hf];
    [|destruct (String.eqb_spec mode "Standby Mode") as [Hs|Hs]];
    destruct (num_gt v (Fin 0) && num_lt v (Fin 180)) eqn:Hlow;
    try destruct (num_gt v (Fin 250));
    destruct (num_gt f (Fin 0) && (num_lt f (Fin 48) || num_gt f (Fin 52)));
    destruct (num_gt p (Fin 90));
    cbn [app length In];
    (split; [lia|]);
    (split; [split; [try lia; intros _; split; reflexivity | intros [H1 H2]; try discriminate; try reflexivity]|]);
    (split; [split; [intros H; try congruence; try exact Hf | intros H; try discriminate; try congruence]|]);
    (split; [first [left; reflexivity | right; reflexivity]|]);
    (split; [split; [intros H; try reflexivity; repeat (destruct H as [H|H]; try discriminate H); try contradiction | intros H; try discriminate H; auto 6]|]);
    lia.
Qed.

Ltac open_health_report H :=
  unfold healthRoute; cbv zeta;
  match goal with
  | |- context [checkLoad ?p (checkSystemMode ?m (checkGridFrequency ?f (checkGridVoltage ?v _)))] =>
    pose proof (health_checks_score v f p m) as H;
    destruct (checkLoad p (checkSystemMode m (checkGridFrequency f
                (checkGridVoltage v ([], [], 100))))) as [[ws es] score]
  end.

(** X16.  Whenever the device answers, the health report has a score between
    15 and 100 (the four deductions cannot all meet, and the clamp at zero
    never acts); the score is 100 exactly when the status is "Online", that
    is when there is no warning and no error; and the status is "Critical"
    exactly in fault mode.  Without device data there is no report. *)
Theorem health_score_and_status
    (parseFloat : string -> number) (item : Item) (dat : list Item) :
  (exists r : HealthResponse,
      healthRoute parseFloat (Some (item :: dat)) = HealthReport r
      /\ 15 <= health_score r <= 100
      /\ (health_score r = 100 <-> status r = "Online")
      /\ (status r = "Online" <-> warnings r = [] /\ errors r = [])
      /\ (status r = "Critical" <-> system_mode r = "Fault Mode")
      /\ (length (warnings r) <= 4)%nat /\ (length (errors r) <= 1)%nat)
  /\ healthRoute parseFloat (Some []) = NoDataAvailable
  /\ healthRoute parseFloat None = HealthFailure.
Proof.
  split; [|split; reflexivity].
  open_health_report H. destruct H as (Hscore & H100 & Hfault & Hes & _ & Hlen).
  eexists. split; [reflexivity|].
  cbn [health_score status warnings errors system_mode].
  rewrite Z.max_r by lia.
  split; [exact Hscore|].
  destruct Hes as [-> | ->]; [destruct ws as [|w ws]|];
    cbn [length Nat.ltb Nat.leb] in *;
    repeat match goal with
           | |- _ /\ _ => split
           | |- _ <-> _ => split
           end;
    intros; try lia; try (intuition (try discriminate; congruence)).
Qed.

(** X17.  The health report and the undervoltage monitor draw the same line:
    the report warns of a low grid voltage exactly when the voltage it shows
    meets the monitor's condition at the default threshold of 180 V. *)
Theorem health_report_warns_when_monitor_would
    (parseFloat : string -> number) (item : Item) (dat : list Item) :
  exists r : HealthResponse,
    healthRoute parseFloat (Some (item :: dat)) = HealthReport r
    /\ (In (LowGridVoltage (utility_ac_voltage r)) (warnings r)
        <-> isVoltageBelow defaultConfig (utility_ac_voltage r) = true).
Proof.
  open_health_report H. destruct H as (_ & _ & _ & _ & Hlow & _).
  eexists. split; [reflexivity|]. exact Hlow.
Qed.

Example health_of_a_weak_grid :
  match healthRoute parseFloat_decimal (Some weakGridItems) with
  | HealthReport r =>
    status r = "Warning" /\ health_score r = 70
    /\ warnings r = [LowGridVoltage (Fin 170); StandbyModeWarning; HighLoad (Fin 95)]
  | _ => False
  end.
Proof. vm_compute. repeat split. Qed.

(** ** The zones of the chart *)

Lemma tiles_snoc (from : Z) (zs : list Zone) (z : Zone) (to : Z) :
  tiles from (zs ++ [z]) to <->
  tiles from zs (zone_start z) /\ zone_start z <= zone_end z /\ to = zone_end z + 1.
Proof.
  revert from; induction zs as [|z' zs IH]; intros from; cbn [app tiles].
  - split.
    + intros (-> & Hle & <-). auto.
    + intros (-> & Hle & ->). auto.
  - rewrite IH. tauto.
Qed.

Lemma modes_alternate_snoc (zs : list Zone) (z : Zone) :
  modes_alternate zs ->
  (forall z', last zs = Some z' -> zone_mode z' <> zone_mode z) ->
  modes_alternate (zs ++ [z]).
Proof.
  induction zs as [|z1 zs IH]; intros Halt Hlast; cbn [app modes_alternate].
  - auto.
  - destruct Halt as [Hhead Htail]. split.
    + destruct zs as [|z2 zs]; cbn [app].
      * apply Hlast. reflexivity.
      * exact Hhead.
    + apply IH; [exact Htail|].
      intros z' Hz'. apply Hlast.
      destruct zs as [|z2 zs]; [discriminate|exact Hz'].
Qed.

Lemma zone_modes_flat_snoc (zs : list Zone) (z : Zone) :
  flat_map zone_modes (zs ++ [z]) = flat_map zone_modes zs ++ zone_modes z.
Proof.
  rewrite flat_map_app. cbn [flat_map]. rewrite app_nil_r. reflexivity.
Qed.

Lemma replicate_snoc {A : Type} (n : nat) (x : A) :
  replicate (S n) x = replicate n x ++ [x].
Proof.
  induction n as [|n IH]; [reflexivity|].
  change (replicate (S (S n)) x) with (x :: replicate (S n) x).
  change (replicate (S n) x ++ [x]) with (x :: (replicate n x ++ [x])).
  f_equal. exact IH.
Qed.

Lemma zoneStep_invariant (st : ZoneScan) (seen : list Point) (point : Point) :
  scan_invariant st seen ->
  scan_invariant (zoneStep st point (Z.of_nat (length seen))) (seen ++ [point]).
Proof.
  unfold scan_invariant, zoneStep, mode_differs.
  destruct (currentMode st) as [m|] eqn:Hcur.
  - intros (Hidx & Htiles & Hmodes & Halt & Hlast).
    rewrite length_app, map_app. cbn [length map].
    destruct (String.eqb (mode point) m) eqn:Heq; cbn [negb].
    + apply String.eqb_eq in Heq. rewrite Hcur.
      repeat split; try lia; try assumption.
      replace (Z.to_nat (Z.of_nat (length seen + 1) - startIndex st))
        with (S (Z.to_nat (Z.of_nat (length seen) - startIndex st))) by lia.
      rewrite replicate_snoc, app_assoc, Hmodes, Heq. reflexivity.
    + apply String.eqb_neq in Heq. cbn [currentMode startIndex zones].
      repeat split; try lia.
      * apply tiles_snoc. cbn [zone_start zone_end]. repeat split; [assumption|lia|lia].
      * rewrite zone_modes_flat_snoc. unfold zone_modes at 2. cbn [zone_start zone_end zone_mode].
        replace (Z.to_nat (Z.of_nat (length seen) - 1 - startIndex st + 1))
          with (Z.to_nat (Z.of_nat (length seen) - startIndex st)) by lia.
        rewrite Hmodes.
        replace (Z.to_nat (Z.of_nat (length seen + 1) - Z.of_nat (length seen))) with 1%nat by lia.
        reflexivity.
      * apply modes_alternate_snoc; [assumption|]. cbn [zone_mode]. exact Hlast.
      * intros z Hz. rewrite last_snoc in Hz. injection Hz as <-. cbn [zone_mode].
        congruence.
  - intros (-> & Hz). cbn [app length map currentMode startIndex zones]. rewrite Hz.
    repeat split; try lia; try reflexivity.
    cbn. discriminate.
Qed.

Lemma scanZones_invariant (rest : list Point) :
  forall (st : ZoneScan) (seen : list Point),
    scan_invariant st seen ->
    scan_invariant (scanZones st (Z.of_nat (length seen)) rest) (seen ++ rest).
Proof.
  induction rest as [|point rest IH]; intros st seen Hinv; cbn [scanZones].
  - rewrite app_nil_r. exact Hinv.
  - replace (Z.of_nat (length seen) + 1) with (Z.of_nat (length (seen ++ [point])))
      by (rewrite length_app; cbn [length]; lia).
    replace (seen ++ point :: rest) with ((seen ++ [point]) ++ rest)
      by (rewrite <- app_assoc; reflexivity).
    apply IH, zoneStep_invariant, Hinv.
Qed.

(** X18. The zones [processModeZones] returns tile the chart: they are
    not empty and follow one another from index 0 to the last index of
    [graphData]; replacing every zone by its mode, once for each of its
    indices, gives back the modes of the points in order; and two zones in a
    row never have the same mode. *)
Theorem mode_zones_tile_the_chart (graphData : list Point) :
  tiles 0 (processModeZones graphData) (Z.of_nat (length graphData))
  /\ flat_map zone_modes (processModeZones graphData) = map mode graphData
  /\ modes_alternate (processModeZones graphData).
Proof.
  pose proof (scanZones_invariant graphData
                {| zones := []; currentMode := None; startIndex := 0 |} []) as Hinv.
  cbn [length app] in Hinv. change (Z.of_nat 0) with 0 in Hinv.
  unfold processModeZones. cbv zeta.
  set (st := scanZones _ 0 graphData) in *.
  assert (scan_invariant st graphData) as H by (apply Hinv; cbn; auto).
  clearbody st. clear Hinv. unfold scan_invariant in H.
  destruct (currentMode st) as [m|].
  - destruct H as (Hidx & Htiles & Hmodes & Halt & Hlast).
    repeat split.
    + apply tiles_snoc. cbn [zone_start zone_end]. repeat split; [assumption|lia|lia].
    + rewrite zone_modes_flat_snoc. unfold zone_modes at 2. cbn [zone_start zone_end zone_mode].
      replace (Z.to_nat (Z.of_nat (length graphData) - 1 - startIndex st + 1))
        with (Z.to_nat (Z.of_nat (length graphData) - startIndex st)) by lia.
      exact Hmodes.
    + apply modes_alternate_snoc; [assumption|]. cbn [zone_mode]. exact Hlast.
  - destruct H as (-> & ->). cbn. auto.
Qed.

(** The zones of the morning of the example. *)
Example zones_of_a_morning :
  processModeZones morningPoints
  = [ {| zone_start := 0; zone_end := 1; zone_mode := "Line Mode" |};
      {| zone_start := 2; zone_end := 2; zone_mode := "Battery Mode" |};
      {| zone_start := 3; zone_end := 3; zone_mode := "Line Mode" |} ].
Proof. reflexivity. Qed.

(** ** The gaps of the chart *)

Lemma last_cons_default {A : Type} (l : list A) :
  forall (x d : A), List.last (x :: l) d = List.last l x.
Proof.
  induction l as [|y l IH]; intros x d; [reflexivity|].
  change (List.last (x :: y :: l) d) with (List.last (y :: l) d).
  rewrite (IH y d), (IH y x). reflexivity.
Qed.

Lemma minute_gap_gt (m prev : Z) :
  num_gt (num_sub (Fin (inject_Z m)) (Fin (inject_Z prev))) (Fin 6) = (6 <? m - prev)%Z.
Proof.
  unfold num_gt, num_sub, num_lift2, num_lt.
  destruct (6 <? m - prev)%Z eqn:E.
  - apply Qltb_spec. apply Z.ltb_lt in E.
    unfold Qlt, Qminus, Qplus, Qopp, inject_Z. cbn [Qnum Qden]. lia.
  - apply Z.ltb_ge in E.
    destruct (Qltb 6 (inject_Z m - inject_Z prev)) eqn:F; [|reflexivity].
    apply Qltb_spec in F.
    unfold Qlt, Qminus, Qplus, Qopp, inject_Z in F. cbn [Qnum Qden] in F. lia.
Qed.

Section GapsTotal.

Variable Number : string -> number.

Lemma gaps_total_from (rest : list Point) :
  forall (prev : Point) (m0 : Z) (ms : list Z),
    minutesOfDay Number (time prev) = Fin (inject_Z m0) ->
    map (fun p => minutesOfDay Number (time p)) rest = map (fun m => Fin (inject_Z m)) ms ->
    on_grid m0 ms ->
    num_same (num_sum (map duration (gapsFrom Number prev rest)))
             (Fin (inject_Z (List.last ms m0 - m0 - 5 * Z.of_nat (length ms)))).
Proof.
  induction rest as [|curr rest IH]; intros prev m0 ms Hprev Hmap Hgrid.
  - destruct ms as [|m ms]; [|discriminate].
    cbn [gapsFrom map num_sum fold_right num_same List.last length].
    unfold Qeq, inject_Z. cbn [Qnum Qden]. lia.
  - destruct ms as [|m ms]; [discriminate|].
    cbn [map] in Hmap. injection Hmap as Hcurr Hmap.
    destruct Hgrid as [Hstep Hgrid].
    specialize (IH curr m ms Hcurr Hmap Hgrid).
    rewrite last_cons_default.
    cbn [gapsFrom]. cbv zeta. rewrite Hcurr, Hprev, minute_gap_gt.
    destruct (6 <? m - m0)%Z eqn:E.
    + cbn [app map duration].
      change (num_sum (?a :: ?l)) with (num_add a (num_sum l)).
      destruct (num_sum (map duration (gapsFrom Number curr rest))) as [|x];
        cbn [num_same] in IH; [contradiction|].
      cbn [num_sub num_add num_lift2 num_same]. rewrite IH.
      unfold Qeq, Qminus, Qplus, Qopp, inject_Z. cbn [Qnum Qden length]. lia.
    + apply Z.ltb_ge in E. cbn [app].
      destruct (num_sum (map duration (gapsFrom Number curr rest))) as [|x];
        cbn [num_same] in IH; [contradiction|].
      cbn [num_same]. rewrite IH.
      unfold Qeq, inject_Z. cbn [Qnum Qden length]. lia.
Qed.

(** X19. When the times of the points are whole minutes of the day and each
    point comes five minutes after the one before it, or more than six, the
    durations of the gaps the dashboard reports add up to the time from the
    first point to the last less five minutes for each step: the minutes of
    the samples that are not there. *)
Theorem gap_durations_add_up (first : Point) (rest : list Point) (m0 : Z) (ms : list Z) :
  minutesOfDay Number (time first) = Fin (inject_Z m0) ->
  map (fun p => minutesOfDay Number (time p)) rest = map (fun m => Fin (inject_Z m)) ms ->
  on_grid m0 ms ->
  num_same (num_sum (map duration (missingDataGaps Number (first :: rest))))
           (Fin (inject_Z (List.last ms m0 - m0 - 5 * Z.of_nat (length ms)))).
Proof.
  intros Hfirst Hmap Hgrid. cbn [missingDataGaps].
  apply gaps_total_from; assumption.
Qed.

(** X20. For a day other than today whose first point is at 00:00 and whose
    last is at 23:55, with the points on the five-minute grid, the gaps add
    up to five minutes for each missing data point of the dashboard. *)
Theorem gaps_of_a_whole_day_match_missing_points
    (first : Point) (rest : list Point) (ms : list Z)
    (date today : string) (hours minutes : Z) :
  minutesOfDay Number (time first) = Fin 0 ->
  map (fun p => minutesOfDay Number (time p)) rest = map (fun m => Fin (inject_Z m)) ms ->
  on_grid 0 ms ->
  List.last ms 0%Z = 1435%Z ->
  date <> today ->
  num_same (num_sum (map duration (missingDataGaps Number (first :: rest))))
           (Fin (inject_Z (Dashboard.DATA_INTERVAL_MINUTES
                           * Dashboard.missingDataPoints (first :: rest) date today hours minutes))).
Proof.
  intros Hfirst Hmap Hgrid Hlast Hdate.
  pose proof (gaps_total_from rest first 0 ms Hfirst Hmap Hgrid) as H.
  rewrite Hlast in H.
  assert (length rest = length ms) as Hlen
    by (rewrite <- (length_map (fun p => minutesOfDay Number (time p)) rest), Hmap, length_map;
        reflexivity).
  unfold Dashboard.missingDataPoints, Dashboard.expectedDataPoints,
    Dashboard.DATA_INTERVAL_MINUTES, Dashboard.EXPECTED_DATA_POINTS_PER_DAY.
  apply String.eqb_neq in Hdate. rewrite Hdate. cbv zeta. cbn [length].
  assert (Z.of_nat (length ms) <= 287)%Z as Hbound.
  { clear - Hgrid Hlast.
    assert (forall (l : list Z) (p : Z), on_grid p l ->
              (p + 5 * Z.of_nat (length l) <= List.last l p)%Z) as Hmono.
    { induction l as [|m l IHl]; intros p Hg; [cbn; lia|].
      destruct Hg as [Hstep Hg]. rewrite last_cons_default.
      specialize (IHl m Hg). cbn [length]. lia. }
    specialize (Hmono ms 0%Z Hgrid). lia. }
  destruct (num_sum (map duration (gapsFrom Number first rest))) as [|x] eqn:Hsum;
    cbn [missingDataGaps]; rewrite Hsum; cbn [num_same] in *; [contradiction|].
  rewrite H. rewrite Hlen.
  unfold Qeq, inject_Z. cbn [Qnum Qden]. lia.
Qed.

End GapsTotal.

(** The gaps of the morning of the example: twenty minutes after 08:05. *)
Example gaps_of_a_morning :
  map (fun g => (gap_start g, gap_end g)) (missingDataGaps Number_decimal morningPoints)
  = [("08:05", "08:30")]
  /\ num_same (num_sum (map duration (missingDataGaps Number_decimal morningPoints))) (Fin 20).
Proof. vm_compute. split; reflexivity. Qed.

Lemma gap_durations_add_up_witness :
  minutesOfDay Number_decimal "08:00" = Fin (inject_Z 480)
  /\ on_grid 480 [485; 510; 515]%Z
  /\ num_same (num_sum (map duration (missingDataGaps Number_decimal morningPoints)))
              (Fin (inject_Z (List.last [485; 510; 515]%Z 480%Z - 480 - 5 * 3))).
Proof.
  split; [vm_compute; reflexivity|]. split; [cbn; lia|].
  apply (gap_durations_add_up Number_decimal
           {| time := "08:00"; pv_power := Fin 100; load_power := Fin 300; mode := "Line Mode" |}
           _ 480 [485; 510; 515]%Z).
  - vm_compute. reflexivity.
  - vm_compute. reflexivity.
  - cbn; lia.
Defined.

Lemma gaps_of_a_whole_day_match_missing_points_witness :
  on_grid 0 [1435]%Z
  /\ num_same
       (num_sum (map duration
          (missingDataGaps Number_decimal
             [ {| time := "00:00"; pv_power := Fin 0; load_power := Fin 200; mode := "Line Mode" |};
               {| time := "23:55"; pv_power := Fin 0; load_power := Fin 250; mode := "Line Mode" |} ])))
       (Fin (inject_Z (Dashboard.DATA_INTERVAL_MINUTES
                       * Dashboard.missingDataPoints
                           [ {| time := "00:00"; pv_power := Fin 0; load_power := Fin 200;
                                mode := "Line Mode" |};
                             {| time := "23:55"; pv_power := Fin 0; load_power := Fin 250;
                                mode := "Line Mode" |} ]
                           "2025-01-05" "2025-01-06" 9 30))).
Proof.
  split; [cbn; lia|].
  apply (gaps_of_a_whole_day_match_missing_points Number_decimal _ _ [1435]%Z).
  - vm_compute. reflexivity.
  - vm_compute. reflexivity.
  - cbn; lia.
  - reflexivity.
  - discriminate.
Defined.

(** ** The minutes of a duration *)

Local Open Scope Q_scope.

(** X21. [formatHours] writes the whole hours of a duration and its minutes
    rounded to the nearest whole number.  The minutes lie between 0 and 60,
    and they are 60, not a further hour, exactly when the duration is within
    half a minute of the next full hour. *)
Theorem formatHours_minutes_reach_sixty (decimalHours : Q) :
  exists mins : Z,
    formatHours decimalHours
    = pretty (Qfloor decimalHours) +:+ " hr " +:+ pretty mins +:+ " min"
    /\ (0 <= mins <= 60)%Z
    /\ (mins = 60%Z <-> inject_Z (Qfloor decimalHours) + (119 # 120) <= decimalHours).
Proof.
  exists (Qround_half_up ((decimalHours - inject_Z (Qfloor decimalHours)) * 60)).
  split; [reflexivity|].
  destruct (Qfloor_bounds decimalHours) as [Hlo Hhi].
  set (f := inject_Z (Qfloor decimalHours)) in *.
  unfold Qround_half_up.
  set (y := (decimalHours - f) * 60 + (1 # 2)).
  assert ((1 # 2) <= y) as Hy0 by (unfold y; lra).
  assert (y <= (121 # 2)) as Hy1 by (unfold y; lra).
  pose proof (Qfloor_resp_le _ _ Hy0) as H0.
  pose proof (Qfloor_resp_le _ _ Hy1) as H1.
  change (Qfloor (1 # 2)) with 0%Z in H0. change (Qfloor (121 # 2)) with 60%Z in H1.
  split; [lia|]. split.
  - intros Heq. destruct (Qfloor_bounds y) as [Hfl _]. rewrite Heq in Hfl.
    change (inject_Z 60) with 60 in Hfl. unfold y in Hfl. lra.
  - intros Hnear.
    assert (60 <= y) as Hy by (unfold y; lra).
    pose proof (Qfloor_resp_le _ _ Hy) as H2. change (Qfloor 60) with 60%Z in H2. lia.
Qed.

Local Close Scope Q_scope.

(** Just under two hours is written with sixty minutes. *)
Example formatHours_sixty_minutes :
  formatHours (239 # 120) = "1 hr 60 min".
Proof. vm_compute. reflexivity. Qed.
